(** * Plugin loader: fetch policy, import decoration, sandbox routing and
      export normalisation

    Shallow embedding of [public/app/features/plugins/plugin_loader.ts].

    The file is organised as follows.
    - [Value]: the JavaScript values a plugin module can export, with
      truthiness and (strict mode) property access.
    - [Outcome], [M]: what a promise settles to, and the monad in which the
      asynchronous functions run: it threads the state of the environment
      and records every call made to a collaborator.
    - [Loader]: the collaborators the file imports from other modules
      (plugin cache, built-in registry, SystemJS, sandbox, the plugin classes
      of @grafana/data), as an interface.
    - [shouldFetch], [SystemJS_import], [importPluginModule],
      [importDataSourcePlugin], [importAppPlugin]: the functions of the file.
    - [Demo]: one concrete environment, on which the functions are run. *)

From Stdlib Require Import Ascii String List Bool Floats Lia.
Import ListNotations.
Open Scope string_scope.
Open Scope list_scope.

Set Implicit Arguments.
Set Warnings "-register-all".

(* ------------------------------------------------------------------ *)
(** ** JavaScript values *)

(** A module, an export and a plugin object are all typed [any] (or through
    [any]) in the source, so they are modelled as untyped values. Objects are
    taken by value: the own properties in insertion order. A function carries
    an opaque name and, being an object, own properties. *)
Inductive Value : Type :=
| VUndefined
| VNull
| VBoolean (b : bool)
| VNumber (x : float)
| VString (s : string)
| VFunction (name : string) (props : list (string * Value))
| VObject (props : list (string * Value)).

Definition Props : Type := list (string * Value).

(** [Boolean(v)], the test of [if (v)], [v ? a : b] and [v && w]. *)
Definition truthy (v : Value) : bool :=
  match v with
  | VUndefined | VNull => false
  | VBoolean b => b
  | VNumber x => negb (PrimFloat.is_zero x || PrimFloat.is_nan x)
  | VString s => negb (s =? "")
  | VFunction _ _ | VObject _ => true
  end.

Fixpoint lookup (k : string) (o : Props) : option Value :=
  match o with
  | [] => None
  | (k', v) :: o' => if k =? k' then Some v else lookup k o'
  end.

Fixpoint assign (k : string) (v : Value) (o : Props) : Props :=
  match o with
  | [] => [(k, v)]
  | (k', v') :: o' => if k =? k' then (k, v) :: o' else (k', v') :: assign k v o'
  end.

(** The own properties of a value that is an object. *)
Definition own (v : Value) : option Props :=
  match v with
  | VObject o | VFunction _ o => Some o
  | _ => None
  end.

Definition isObject (v : Value) : bool :=
  match own v with Some _ => true | None => false end.

(** The same object with other properties. *)
Definition withProps (v : Value) (o : Props) : Value :=
  match v with
  | VObject _ => VObject o
  | VFunction f _ => VFunction f o
  | _ => v
  end.

(** The field [k] of [v]: [undefined] when [v] has no such own property.
    Only the names [plugin], [Datasource], [__useDefault], [default] and
    [meta] are read in this file, none of which a prototype provides. *)
Definition field (v : Value) (k : string) : Value :=
  match own v with
  | Some o => match lookup k o with Some x => x | None => VUndefined end
  | None => VUndefined
  end.

Definition hasField (v : Value) (k : string) : bool :=
  match own v with
  | Some o => match lookup k o with Some _ => true | None => false end
  | None => false
  end.

(** [v == null]: the values no property can be read from. *)
Definition nullish (v : Value) : bool :=
  match v with VUndefined | VNull => true | _ => false end.

Definition JsError (name message : string) : Value :=
  VObject [("name", VString name); ("message", VString message)].

Definition TypeError (message : string) : Value := JsError "TypeError" message.

(* ------------------------------------------------------------------ *)
(** ** Promises and the loader monad *)

(** What a promise settles to, if it settles. A synchronous [throw] inside an
    async function or a [then] callback is a rejection. *)
Inductive Outcome (A : Type) : Type :=
| Resolved (a : A)
| Rejected (reason : Value)
| Pending.

Arguments Resolved {A} a.
Arguments Rejected {A} reason.
Arguments Pending {A}.

(** [v.k]: reading a property of [undefined] or [null] throws. *)
Definition getProp (v : Value) (k : string) : Outcome Value :=
  match v with
  | VUndefined | VNull => Rejected (TypeError "Cannot read properties of undefined or null")
  | _ => Resolved (field v k)
  end.

(** [v.k = x] in strict mode (modules are strict): it throws unless [v] is an
    object. The result is the object after the assignment. *)
Definition setProp (v : Value) (k : string) (x : Value) : Outcome Value :=
  match own v with
  | Some o => Resolved (withProps v (assign k x o))
  | None => Rejected (TypeError "Cannot create property on a value that is not an object")
  end.

(** Plugin metadata: the fields the loader reads. [info] and [angular] are
    read through [?.] and may be missing. *)
Module PluginMetaInfo.
Record t : Type := mk { version : string }.
End PluginMetaInfo.

Module AngularMeta.
Record t : Type := mk { detected : bool; hideDeprecation : bool }.
End AngularMeta.

Module PluginMeta.
Record t : Type := mk {
  id : string;
  module : string;
  info : option PluginMetaInfo.t;
  angular : option AngularMeta.t
}.
End PluginMeta.

(** The argument of [registerPluginInCache]. *)
Module CacheablePlugin.
Record t : Type := mk {
  path : string;
  version : string;
  isAngular : option bool
}.
End CacheablePlugin.

(** What [getPluginFromCache] returns. *)
Module CachedPlugin.
Record t : Type := mk {
  version : string;
  isAngular : option bool
}.
End CachedPlugin.

(** The metadata as the value stored in the [meta] property of a plugin. *)
Definition metaValue (meta : PluginMeta.t) : Value :=
  VObject
    ([("id", VString (PluginMeta.id meta));
      ("module", VString (PluginMeta.module meta))]
     ++ match PluginMeta.info meta with
        | Some i => [("info", VObject [("version", VString (PluginMetaInfo.version i))])]
        | None => []
        end
     ++ match PluginMeta.angular meta with
        | Some a => [("angular",
                      VObject [("detected", VBoolean (AngularMeta.detected a));
                               ("hideDeprecation", VBoolean (AngularMeta.hideDeprecation a))])]
        | None => []
        end).

(** One call made to a collaborator. *)
Inductive Event : Type :=
| EvRegisterPluginInCache (plugin : CacheablePlugin.t)
| EvBuiltInFactory (path : string)
| EvResolveModulePath (path : string)
| EvIsFrontendSandboxSupported (isAngular : option bool) (pluginId : string)
| EvImportPluginModuleInSandbox (pluginId : string)
| EvOriginalImport (id : string) (parentUrl : option string)
| EvNewDataSourcePlugin (DataSourceClass : Value)
| EvNewAppPlugin
| EvInit (receiver : Value) (meta : PluginMeta.t)
| EvSetComponentsFromLegacyExports (receiver : Value) (pluginExports : Value).

Definition isRegistration (e : Event) : bool :=
  match e with EvRegisterPluginInCache _ => true | _ => false end.

(** Module-path resolution and the generic loader's import. *)
Definition isGenericLoader (e : Event) : bool :=
  match e with
  | EvResolveModulePath _ | EvOriginalImport _ _ => true
  | _ => false
  end.

(** The sandbox capability: the support check and the sandboxed import. *)
Definition isSandbox (e : Event) : bool :=
  match e with
  | EvIsFrontendSandboxSupported _ _ | EvImportPluginModuleInSandbox _ => true
  | _ => false
  end.

Definition isSandboxImport (e : Event) : bool :=
  match e with EvImportPluginModuleInSandbox _ => true | _ => false end.

Definition isOriginalImport (e : Event) : bool :=
  match e with EvOriginalImport _ _ => true | _ => false end.

Definition isInit (e : Event) : bool :=
  match e with EvInit _ _ => true | _ => false end.

Definition isSetComponents (e : Event) : bool :=
  match e with EvSetComponentsFromLegacyExports _ _ => true | _ => false end.

Definition isConstruction (e : Event) : bool :=
  match e with EvNewDataSourcePlugin _ | EvNewAppPlugin => true | _ => false end.

(** A constructor or a method of a plugin class. *)
Definition isPluginCall (e : Event) : bool :=
  isConstruction e || isInit e || isSetComponents e.

Definition count (p : Event -> bool) (l : list Event) : nat :=
  length (filter p l).

Definition never (p : Event -> bool) (l : list Event) : bool :=
  forallb (fun e => negb (p e)) l.

(** A run from a state of the environment: the outcome, the state reached
    and the calls made, in order. *)
Record Run (World A : Type) : Type := mkRun {
  outcome : Outcome A;
  world : World;
  events : list Event
}.

Definition M (World A : Type) : Type := World -> Run World A.

(** A collaborator: it may change the environment, and its promise may
    resolve, reject or stay pending. *)
Definition Ext (World A : Type) : Type := World -> Outcome A * World.

Section Monad.
Context {World : Type}.

Definition ret {A} (a : A) : M World A :=
  fun w => mkRun (Resolved a) w [].

Definition settle {A} (o : Outcome A) : M World A :=
  fun w => mkRun o w [].

Definition throw {A} (reason : Value) : M World A :=
  settle (Rejected reason).

(** [await]/[then]: the continuation runs only on a resolved value. *)
Definition bind {A B} (m : M World A) (k : A -> M World B) : M World B :=
  fun w =>
    let r := m w in
    match outcome r with
    | Resolved a =>
        let r' := k a (world r) in
        mkRun (outcome r') (world r') (events r ++ events r')
    | Rejected e => mkRun (Rejected e) (world r) (events r)
    | Pending => mkRun Pending (world r) (events r)
    end.

(** A recorded call to a collaborator. *)
Definition call {A} (e : Event) (f : Ext World A) : M World A :=
  fun w => let (o, w') := f w in mkRun o w' [e].

(** A recorded call to a synchronous, pure collaborator. *)
Definition callPure {A} (e : Event) (a : A) : M World A :=
  fun w => mkRun (Resolved a) w [e].

End Monad.

Declare Scope loader_scope.
Delimit Scope loader_scope with loader.
Notation "x <- m ;; k" := (bind m (fun x => k))
  (at level 61, m at next level, right associativity) : loader_scope.
Notation "m ;;; k" := (bind m (fun _ => k))
  (at level 61, right associativity) : loader_scope.
Open Scope loader_scope.

(* ------------------------------------------------------------------ *)
(** ** The collaborators *)

(** An entry of the built-in registry: a bundled module, or an async factory
    for one ([typeof builtIn === 'function']). *)
Inductive BuiltIn (World : Type) : Type :=
| BuiltInModule (module : Value)
| BuiltInFactory (factory : Ext World Value).

Arguments BuiltInModule {World} module.
Arguments BuiltInFactory {World} factory.

(** What [plugin_loader.ts] imports from other modules. None of them is part
    of the sources at hand, so the functions below are stated for any
    implementation. [registerPluginInCache] and [resolveModulePath] are
    synchronous and return normally. The asynchronous ones are [Ext]: their
    promise may resolve, reject or stay pending. The classes
    [DataSourcePlugin] and [AppPlugin] of @grafana/data are given by their
    constructor and by the effect of their methods on the own properties of
    the receiver; the methods return normally. *)
Class Loader (World : Type) : Type := {
  (* ./loader/cache *)
  getPluginFromCache : string -> World -> option CachedPlugin.t;
  registerPluginInCache : CacheablePlugin.t -> World -> World;
  (* ./loader/utils *)
  isHostedOnCDN : string -> bool;
  resolveModulePath : string -> string;
  (* ./built_in_plugins *)
  builtInPlugins : string -> option (BuiltIn World);
  (* ./sandbox/utils and ./sandbox/sandbox_plugin_loader *)
  isFrontendSandboxSupported : option bool -> string -> Ext World bool;
  importPluginModuleInSandbox : string -> Ext World Value;
  (* systemJSPrototype.import before it is replaced *)
  originalImport : string -> option string -> Ext World Value;
  (* @grafana/data *)
  DataSourcePlugin_new : Value -> Props;
  DataSourcePlugin_setComponentsFromLegacyExports : Props -> Value -> Props;
  AppPlugin_new : Props;
  AppPlugin_init : Props -> PluginMeta.t -> Props;
  AppPlugin_setComponentsFromLegacyExports : Props -> Value -> Props
}.

(** The argument of [importPluginModule]. *)
Module PluginImportRequest.
Record t : Type := mk {
  path : string;
  pluginId : string;
  version : option string;
  isAngular : option bool
}.
End PluginImportRequest.

(* ------------------------------------------------------------------ *)
(** ** plugin_loader.ts *)

(** [o?.f] *)
Definition optChain {A B} (o : option A) (f : A -> option B) : option B :=
  match o with Some a => f a | None => None end.

(** [Boolean(b)] for [b : boolean | undefined] *)
Definition BooleanOf (b : option bool) : bool :=
  match b with Some true => true | _ => false end.

(** [if (s)] for [s : string | undefined] *)
Definition truthyString (s : option string) : bool :=
  match s with Some v => negb (v =? "") | None => false end.

Section PluginLoader.
Context {World : Type} {L : Loader World}.

(** [systemJSPrototype.shouldFetch] *)
Definition shouldFetch (url : string) (w : World) : bool :=
  let pluginInfo := getPluginFromCache url w in
  isHostedOnCDN url || BooleanOf (optChain pluginInfo CachedPlugin.isAngular).

(** [a && b] *)
Definition andThen (a : Value) (b : M World Value) : M World Value :=
  if truthy a then b else ret a.

(** The [then] callback of the import hook. *)
Definition useDefault (module : Value) : M World Value :=
  cond <- andThen module (settle (getProp module "__useDefault")) ;;
  if truthy cond then settle (getProp module "default") else ret module.

(** [systemJSPrototype.import], which [SystemJS.import] runs. *)
Definition SystemJS_import (id : string) (parentUrl : option string) : M World Value :=
  module <- call (EvOriginalImport id parentUrl) (originalImport id parentUrl) ;;
  useDefault module.

Definition importPluginModule (request : PluginImportRequest.t) : M World Value :=
  let path := PluginImportRequest.path request in
  let version := PluginImportRequest.version request in
  let isAngular := PluginImportRequest.isAngular request in
  let pluginId := PluginImportRequest.pluginId request in
  match version with
  | Some v =>
      if truthyString version then
        let entry := CacheablePlugin.mk path v isAngular in
        call (EvRegisterPluginInCache entry)
             (fun w => (Resolved tt, registerPluginInCache entry w))
      else ret tt
  | None => ret tt
  end ;;;
  match builtInPlugins path with
  | Some (BuiltInFactory builtIn) => call (EvBuiltInFactory path) builtIn
  | Some (BuiltInModule builtIn) => ret builtIn
  | None =>
      modulePath <- callPure (EvResolveModulePath path) (resolveModulePath path) ;;
      supported <- call (EvIsFrontendSandboxSupported isAngular pluginId)
                        (isFrontendSandboxSupported isAngular pluginId) ;;
      if (supported : bool) then
        call (EvImportPluginModuleInSandbox pluginId) (importPluginModuleInSandbox pluginId)
      else
        SystemJS_import modulePath None
  end.

(** The request the two typed importers build from the metadata. *)
Definition requestOf (meta : PluginMeta.t) : PluginImportRequest.t :=
  PluginImportRequest.mk
    (PluginMeta.module meta)
    (PluginMeta.id meta)
    (optChain (PluginMeta.info meta) (fun i => Some (PluginMetaInfo.version i)))
    (optChain (PluginMeta.angular meta) (fun a => Some (AngularMeta.detected a))).

(** [receiver.method(...)]: the method acts on the own properties of an
    object; a value that is not an object has no such method. An object is
    taken to be of the class its TypeScript type names, a pre-built [plugin]
    export included. *)
Definition invoke (e : Event) (method : Props -> Props) (receiver : Value) : M World Value :=
  match own receiver with
  | Some o => callPure e (withProps receiver (method o))
  | None => throw (TypeError "The method is not a function")
  end.

Definition missingExport : Value :=
  JsError "Error" "Plugin module is missing DataSourcePlugin or Datasource constructor export".

Definition importDataSourcePlugin (meta : PluginMeta.t) : M World Value :=
  pluginExports <- importPluginModule (requestOf meta) ;;
  plugin <- settle (getProp pluginExports "plugin") ;;
  if truthy plugin then
    settle (setProp plugin "meta" (metaValue meta))
  else
    Datasource <- settle (getProp pluginExports "Datasource") ;;
    if truthy Datasource then
      dsPlugin <- callPure (EvNewDataSourcePlugin Datasource)
                           (VObject (DataSourcePlugin_new Datasource)) ;;
      dsPlugin <- invoke (EvSetComponentsFromLegacyExports dsPlugin pluginExports)
                         (fun this => DataSourcePlugin_setComponentsFromLegacyExports this pluginExports)
                         dsPlugin ;;
      settle (setProp dsPlugin "meta" (metaValue meta))
    else
      throw missingExport.

Definition importAppPlugin (meta : PluginMeta.t) : M World Value :=
  pluginExports <- importPluginModule (requestOf meta) ;;
  exported <- settle (getProp pluginExports "plugin") ;;
  plugin <- (if truthy exported then ret exported
             else callPure EvNewAppPlugin (VObject AppPlugin_new)) ;;
  plugin <- invoke (EvInit plugin meta) (fun this => AppPlugin_init this meta) plugin ;;
  plugin <- settle (setProp plugin "meta" (metaValue meta)) ;;
  plugin <- invoke (EvSetComponentsFromLegacyExports plugin pluginExports)
                   (fun this => AppPlugin_setComponentsFromLegacyExports this pluginExports)
                   plugin ;;
  ret plugin.

End PluginLoader.

(* ------------------------------------------------------------------ *)
(** ** A sample environment *)

Module Demo.

(** Modelled from the spec: the plugin cache of [./loader/cache], which is
    not among the sources. It maps a normalised module path (the path
    without its query string) to the registered version and flag; a later
    registration for a path replaces the earlier one. *)
Definition World : Type := list (string * CachedPlugin.t).

Fixpoint extractPath (path : string) : string :=
  match path with
  | EmptyString => EmptyString
  | String c rest =>
      if Ascii.eqb c "?"%char then EmptyString else String c (extractPath rest)
  end.

Fixpoint find (key : string) (cache : World) : option CachedPlugin.t :=
  match cache with
  | [] => None
  | (k, entry) :: rest => if key =? k then Some entry else find key rest
  end.

Definition lookupCache (path : string) (cache : World) : option CachedPlugin.t :=
  find (extractPath path) cache.

Definition register (plugin : CacheablePlugin.t) (cache : World) : World :=
  (extractPath (CacheablePlugin.path plugin),
   CachedPlugin.mk (CacheablePlugin.version plugin) (CacheablePlugin.isAngular plugin))
  :: cache.

Definition cdn : string := "https://plugins-cdn.example.net/".

Definition hostedOnCDN (url : string) : bool := String.prefix cdn url.

Definition resolvePath (path : string) : string :=
  if String.prefix "http" path then path else "/public/" ++ path.

Definition textPanel : Value :=
  VObject [("plugin", VObject [("kind", VString "text")])].

Definition lokiModule : Value :=
  VObject [("plugin", VObject [("kind", VString "loki")])].

Definition builtIns (path : string) : option (BuiltIn World) :=
  if path =? "core:plugin/text" then Some (BuiltInModule textPanel)
  else if path =? "core:plugin/loki" then
    Some (BuiltInFactory (fun w => (Resolved lokiModule, w)))
  else None.

Definition probeError : Value := JsError "Error" "plugin settings are unavailable".

(** A support check that fails for one plugin, reports support for another
    whatever its flags, supports a third unless it is an Angular plugin, and
    reports no support for the rest. *)
Definition sandboxSupported (isAngular : option bool) (pluginId : string) : Ext World bool :=
  fun w =>
    if pluginId =? "probe-fails" then (Rejected probeError, w)
    else if pluginId =? "always-sandboxed" then (Resolved true, w)
    else if pluginId =? "sandbox-eligible" then (Resolved (negb (BooleanOf isAngular)), w)
    else (Resolved false, w).

Definition sandboxedModule (pluginId : string) : Value :=
  VObject [("plugin", VObject [("sandboxOf", VString pluginId)])].

Definition importInSandbox (pluginId : string) : Ext World Value :=
  fun w => (Resolved (sandboxedModule pluginId), w).

Definition LegacyDatasource : Value := VFunction "LegacyDatasource" [].
Definition LegacyQueryCtrl : Value := VFunction "LegacyQueryCtrl" [].
Definition LegacyConfigCtrl : Value := VFunction "LegacyConfigCtrl" [].

Definition legacyExports : Value :=
  VObject [("Datasource", LegacyDatasource); ("QueryCtrl", LegacyQueryCtrl);
           ("ConfigCtrl", LegacyConfigCtrl)].

Definition prebuilt : Value := VObject [("kind", VString "prebuilt")].

Definition modernExports : Value :=
  VObject [("plugin", prebuilt); ("Datasource", LegacyDatasource)].

Definition emptyExports : Value := VObject [("somethingElse", VNumber 1%float)].

Definition defaultOnly : Value :=
  VObject [("__useDefault", VBoolean true); ("default", legacyExports)].

Definition appExports : Value := VObject [("ConfigCtrl", LegacyConfigCtrl)].

Definition nullDatasource : Value := VObject [("Datasource", VNull)].

Definition nullPlugin : Value :=
  VObject [("plugin", VNull); ("Datasource", LegacyDatasource)].

Definition textPlugin : Value := VObject [("plugin", VString "prebuilt")].

(** The modules the generic loader serves, by resolved path. *)
Definition systemImport (id : string) (parentUrl : option string) : Ext World Value :=
  fun w =>
    if id =? "/public/plugins/legacy-ds/module.js" then (Resolved legacyExports, w)
    else if id =? "/public/plugins/modern-ds/module.js" then (Resolved modernExports, w)
    else if id =? "/public/plugins/empty-ds/module.js" then (Resolved emptyExports, w)
    else if id =? "/public/plugins/default-ds/module.js" then (Resolved defaultOnly, w)
    else if id =? "/public/plugins/my-app/module.js" then (Resolved appExports, w)
    else if id =? "/public/plugins/null-ds/module.js" then (Resolved nullDatasource, w)
    else if id =? "/public/plugins/null-plugin/module.js" then (Resolved nullPlugin, w)
    else if id =? "/public/plugins/text-plugin/module.js" then (Resolved textPlugin, w)
    else (Rejected (JsError "Error" "Unable to resolve the module"), w).

Definition newDataSourcePlugin (DataSourceClass : Value) : Props :=
  [("components", VObject []); ("DataSourceClass", DataSourceClass)].

Definition setDataSourceComponents (this : Props) (pluginExports : Value) : Props :=
  assign "components" (VObject [("QueryCtrl", field pluginExports "QueryCtrl")])
    (assign "angularConfigCtrl" (field pluginExports "ConfigCtrl") this).

Definition setAppComponents (this : Props) (pluginExports : Value) : Props :=
  if truthy (field pluginExports "ConfigCtrl")
  then assign "angularConfigCtrl" (field pluginExports "ConfigCtrl") this
  else this.

#[global] Instance loader : Loader World := {|
  getPluginFromCache := lookupCache;
  registerPluginInCache := register;
  isHostedOnCDN := hostedOnCDN;
  resolveModulePath := resolvePath;
  builtInPlugins := builtIns;
  isFrontendSandboxSupported := sandboxSupported;
  importPluginModuleInSandbox := importInSandbox;
  originalImport := systemImport;
  DataSourcePlugin_new := newDataSourcePlugin;
  DataSourcePlugin_setComponentsFromLegacyExports := setDataSourceComponents;
  AppPlugin_new := [];
  AppPlugin_init := fun this _ => this;
  AppPlugin_setComponentsFromLegacyExports := setAppComponents
|}.

Definition emptyCache : World := [].

Definition request (path pluginId : string) (version : option string)
    (isAngular : option bool) : PluginImportRequest.t :=
  PluginImportRequest.mk path pluginId version isAngular.

Definition metaOf (pluginId path : string) : PluginMeta.t :=
  PluginMeta.mk pluginId path (Some (PluginMetaInfo.mk "1.2.3")) None.

Definition legacyMeta : PluginMeta.t := metaOf "legacy-ds" "plugins/legacy-ds/module.js".
Definition modernMeta : PluginMeta.t := metaOf "modern-ds" "plugins/modern-ds/module.js".
Definition emptyMeta : PluginMeta.t := metaOf "empty-ds" "plugins/empty-ds/module.js".
Definition appMeta : PluginMeta.t := metaOf "my-app" "plugins/my-app/module.js".
Definition nullDatasourceMeta : PluginMeta.t := metaOf "null-ds" "plugins/null-ds/module.js".
Definition nullPluginMeta : PluginMeta.t := metaOf "null-plugin" "plugins/null-plugin/module.js".
Definition textPluginMeta : PluginMeta.t := metaOf "text-plugin" "plugins/text-plugin/module.js".

End Demo.

(* ------------------------------------------------------------------ *)
(** ** Vocabulary of the statements *)

Section Vocabulary.
Context {World : Type} {L : Loader World}.

(** The cache entry a request registers, if it registers one. *)
Definition registration (request : PluginImportRequest.t) : option CacheablePlugin.t :=
  match PluginImportRequest.version request with
  | Some v =>
      if v =? "" then None
      else Some (CacheablePlugin.mk (PluginImportRequest.path request) v
                                    (PluginImportRequest.isAngular request))
  | None => None
  end.

(** The environment once the request has gone through the registration step. *)
Definition registered (request : PluginImportRequest.t) (w : World) : World :=
  match registration request with
  | Some entry => registerPluginInCache entry w
  | None => w
  end.

Definition registrationEvents (request : PluginImportRequest.t) : list Event :=
  match registration request with
  | Some entry => [EvRegisterPluginInCache entry]
  | None => []
  end.

(** The same request with no version. *)
Definition withoutVersion (request : PluginImportRequest.t) : PluginImportRequest.t :=
  PluginImportRequest.mk (PluginImportRequest.path request)
    (PluginImportRequest.pluginId request) None
    (PluginImportRequest.isAngular request).

End Vocabulary.

(** The calls that load a module: a built-in factory, the sandboxed import,
    the generic loader's import. *)
Definition isModuleLoad (e : Event) : bool :=
  match e with
  | EvBuiltInFactory _ | EvImportPluginModuleInSandbox _ | EvOriginalImport _ _ => true
  | _ => false
  end.

Definition isSupportCheck (e : Event) : bool :=
  match e with EvIsFrontendSandboxSupported _ _ => true | _ => false end.

Definition isResolution (e : Event) : bool :=
  match e with EvResolveModulePath _ => true | _ => false end.

(** Every call in the list is a call to a plugin class. *)
Definition onlyPluginCalls (l : list Event) : bool := forallb isPluginCall l.

(** More metadata for the sample environment. *)
Module Cases.

Definition defaultMeta : PluginMeta.t :=
  Demo.metaOf "default-ds" "plugins/default-ds/module.js".

Definition goneMeta : PluginMeta.t :=
  Demo.metaOf "gone-ds" "plugins/gone-ds/module.js".

Definition unversionedMeta : PluginMeta.t :=
  PluginMeta.mk "legacy-ds" "plugins/legacy-ds/module.js" (Some (PluginMetaInfo.mk "")) None.

Definition angularMeta : PluginMeta.t :=
  PluginMeta.mk "legacy-ds" "plugins/legacy-ds/module.js"
    (Some (PluginMetaInfo.mk "4.0.1")) (Some (AngularMeta.mk true false)).

(** The sample environment with a support check that never settles. *)
Definition stalledCheck (isAngular : option bool) (pluginId : string) : Ext Demo.World bool :=
  fun w => (Pending, w).

Definition stalled : Loader Demo.World := {|
  getPluginFromCache := Demo.lookupCache;
  registerPluginInCache := Demo.register;
  isHostedOnCDN := Demo.hostedOnCDN;
  resolveModulePath := Demo.resolvePath;
  builtInPlugins := Demo.builtIns;
  isFrontendSandboxSupported := stalledCheck;
  importPluginModuleInSandbox := Demo.importInSandbox;
  originalImport := Demo.systemImport;
  DataSourcePlugin_new := Demo.newDataSourcePlugin;
  DataSourcePlugin_setComponentsFromLegacyExports := Demo.setDataSourceComponents;
  AppPlugin_new := [];
  AppPlugin_init := fun this _ => this;
  AppPlugin_setComponentsFromLegacyExports := Demo.setAppComponents
|}.

End Cases.

(* ------------------------------------------------------------------ *)
(** ** Values and the monad *)

Lemma truthy_not_nullish (v : Value) (k : string) :
  truthy v = true -> getProp v k = Resolved (field v k).
Proof. destruct v; simpl; intros H; try reflexivity; discriminate H. Qed.

Lemma falsy_has_no_field (v : Value) (k : string) :
  truthy v = false -> field v k = VUndefined.
Proof. destruct v; simpl; intros H; try reflexivity; discriminate H. Qed.

Lemma not_nullish_getProp (v : Value) (k : string) :
  nullish v = false -> getProp v k = Resolved (field v k).
Proof. destruct v; simpl; intros H; try reflexivity; discriminate H. Qed.

Lemma field_not_nullish (v : Value) (k : string) :
  hasField v k = true -> nullish v = false.
Proof. destruct v; simpl; intros H; try reflexivity; discriminate H. Qed.

Lemma object_is_truthy (v : Value) : isObject v = true -> truthy v = true.
Proof. destruct v; simpl; intros H; try reflexivity; discriminate H. Qed.

Lemma absent_field_is_undefined (v : Value) (k : string) :
  hasField v k = false -> field v k = VUndefined.
Proof.
  unfold hasField, field. destruct (own v) as [o|]; [|reflexivity].
  destruct (lookup k o); [discriminate|reflexivity].
Qed.

Lemma truthy_field_is_present (v : Value) (k : string) :
  truthy (field v k) = true -> hasField v k = true.
Proof.
  intros H. destruct (hasField v k) eqn:E; [reflexivity|].
  rewrite (absent_field_is_undefined _ _ E) in H. discriminate H.
Qed.

Lemma lookup_assign_same (k : string) (x : Value) (o : Props) :
  lookup k (assign k x o) = Some x.
Proof.
  induction o as [|[k' v'] o IH]; simpl.
  - rewrite String.eqb_refl. reflexivity.
  - destruct (k =? k') eqn:E; simpl.
    + rewrite String.eqb_refl. reflexivity.
    + rewrite E. exact IH.
Qed.

Lemma lookup_assign_other (k k' : string) (x : Value) (o : Props) :
  k' <> k -> lookup k' (assign k x o) = lookup k' o.
Proof.
  intros Hne. induction o as [|[k0 v0] o IH]; simpl.
  - destruct (k' =? k) eqn:E; [apply String.eqb_eq in E; contradiction|reflexivity].
  - destruct (k =? k0) eqn:E; simpl.
    + apply String.eqb_eq in E. subst k0.
      destruct (k' =? k) eqn:E'; [apply String.eqb_eq in E'; contradiction|reflexivity].
    + destruct (k' =? k0); [reflexivity|exact IH].
Qed.

Lemma setProp_object (v x : Value) (k : string) (o : Props) :
  own v = Some o -> setProp v k x = Resolved (withProps v (assign k x o)).
Proof. unfold setProp. intros ->. reflexivity. Qed.

Lemma field_withProps (v : Value) (o o' : Props) (k : string) :
  own v = Some o ->
  field (withProps v o') k = match lookup k o' with Some x => x | None => VUndefined end.
Proof. destruct v; simpl; intros H; try discriminate H; reflexivity. Qed.

(** After [v.k = x] the field [k] of the object is [x]. *)
Lemma field_after_assignment (v x : Value) (k : string) (o : Props) :
  own v = Some o -> field (withProps v (assign k x o)) k = x.
Proof.
  intros H. rewrite (field_withProps _ _ _ H), lookup_assign_same. reflexivity.
Qed.

Section MonadFacts.
Context {World : Type}.

Lemma bind_resolved {A B} (m : M World A) (k : A -> M World B) (w : World) (a : A) :
  outcome (m w) = Resolved a ->
  bind m k w = mkRun (outcome (k a (world (m w)))) (world (k a (world (m w))))
                     (events (m w) ++ events (k a (world (m w)))).
Proof. unfold bind. intros ->. reflexivity. Qed.

Lemma bind_rejected {A B} (m : M World A) (k : A -> M World B) (w : World) (e : Value) :
  outcome (m w) = Rejected e ->
  bind m k w = mkRun (Rejected e) (world (m w)) (events (m w)).
Proof. unfold bind. intros ->. reflexivity. Qed.

Lemma bind_pending {A B} (m : M World A) (k : A -> M World B) (w : World) :
  outcome (m w) = Pending ->
  bind m k w = mkRun Pending (world (m w)) (events (m w)).
Proof. unfold bind. intros ->. reflexivity. Qed.

Lemma bind_ret {A B} (a : A) (k : A -> M World B) (w : World) :
  bind (ret a) k w = k a w.
Proof. unfold bind, ret. simpl. destruct (k a w). reflexivity. Qed.

Lemma bind_assoc {A B C} (m : M World A) (f : A -> M World B) (g : B -> M World C)
    (w : World) :
  bind (bind m f) g w = bind m (fun a => bind (f a) g) w.
Proof.
  unfold bind. destruct (outcome (m w)) as [a| |]; cbn [outcome world events];
    try reflexivity.
  destruct (outcome (f a (world (m w)))); cbn [outcome world events];
    try reflexivity.
  rewrite app_assoc. reflexivity.
Qed.

Lemma bind_settle_resolved {A B} (a : A) (k : A -> M World B) (w : World) :
  bind (settle (Resolved a)) k w = k a w.
Proof. exact (bind_ret a k w). Qed.

Lemma bind_settle_rejected {A B} (e : Value) (k : A -> M World B) (w : World) :
  bind (settle (Rejected e)) k w = mkRun (Rejected e) w [].
Proof. reflexivity. Qed.

Lemma bind_callPure {A B} (e : Event) (a : A) (k : A -> M World B) (w : World) :
  bind (callPure e a) k w =
  mkRun (outcome (k a w)) (world (k a w)) (e :: events (k a w)).
Proof. reflexivity. Qed.

End MonadFacts.

Lemma never_app (p : Event -> bool) (l1 l2 : list Event) :
  never p (l1 ++ l2) = never p l1 && never p l2.
Proof. apply forallb_app. Qed.

Lemma count_app (p : Event -> bool) (l1 l2 : list Event) :
  count p (l1 ++ l2) = count p l1 + count p l2.
Proof. unfold count. rewrite filter_app, length_app. reflexivity. Qed.

Lemma never_count (p : Event -> bool) (l : list Event) :
  never p l = true -> count p l = 0.
Proof.
  unfold never, count. induction l as [|e l IH]; simpl; [reflexivity|].
  destruct (p e); simpl; [discriminate|exact IH].
Qed.

(* ------------------------------------------------------------------ *)
(** ** The loader hooks *)

Section Hooks.
Context {World : Type} {L : Loader World}.

(** C1. [shouldFetch] answers true (fetch as text and evaluate in-process)
    exactly when the URL is hosted on a recognised CDN or the cache entry found
    for the URL has [isAngular = true]. A CDN-hosted URL gives true whatever
    the cache holds, and a URL that is not CDN-hosted and has no cache entry
    gives false (load via script tag). *)
Theorem shouldFetch_cdn_or_angular (url : string) (w : World) :
  (shouldFetch url w = true <->
     isHostedOnCDN url = true \/
     exists entry, getPluginFromCache url w = Some entry /\
                   CachedPlugin.isAngular entry = Some true)
  /\ (isHostedOnCDN url = true -> forall w', shouldFetch url w' = true)
  /\ (isHostedOnCDN url = false -> getPluginFromCache url w = None ->
      shouldFetch url w = false).
Proof.
  unfold shouldFetch. repeat split.
  - intros H. apply orb_true_iff in H. destruct H as [H|H]; [left; exact H|right].
    destruct (getPluginFromCache url w) as [entry|]; simpl in H; [|discriminate].
    exists entry. split; [reflexivity|].
    destruct (CachedPlugin.isAngular entry) as [[|]|]; simpl in H;
      try discriminate; reflexivity.
  - intros [H|[entry [Hc Ha]]]; apply orb_true_iff; [left; exact H|right].
    rewrite Hc. simpl. rewrite Ha. reflexivity.
  - intros H w'. rewrite H. reflexivity.
  - intros H Hc. rewrite H, Hc. reflexivity.
Qed.

Lemma useDefault_run (module : Value) (w : World) :
  useDefault module w =
  mkRun (Resolved (if truthy (field module "__useDefault")
                   then field module "default" else module)) w [].
Proof.
  unfold useDefault, andThen.
  destruct (truthy module) eqn:Hm.
  - unfold bind, settle. rewrite !(truthy_not_nullish _ _ Hm). simpl.
    destruct (truthy (field module "__useDefault")); reflexivity.
  - rewrite bind_ret, Hm, (falsy_has_no_field _ _ Hm). reflexivity.
Qed.

Lemma SystemJS_import_run (id : string) (parentUrl : option string) (w : World) :
  SystemJS_import id parentUrl w =
  mkRun (match fst (originalImport id parentUrl w) with
         | Resolved module =>
             Resolved (if truthy (field module "__useDefault")
                       then field module "default" else module)
         | Rejected e => Rejected e
         | Pending => Pending
         end)
        (snd (originalImport id parentUrl w))
        [EvOriginalImport id parentUrl].
Proof.
  unfold SystemJS_import, bind, call.
  destruct (originalImport id parentUrl w) as [[module|e|] w']; simpl;
    try reflexivity.
  rewrite useDefault_run. reflexivity.
Qed.

(** C6. When the underlying import resolves to a value with a truthy
    [__useDefault] marker, the decorated import resolves to the value of its
    [default] field; when the marker is missing or falsy, it resolves to the
    value itself, unchanged. Nothing else is called. *)
Theorem import_substitutes_default (id : string) (parentUrl : option string)
    (w w' : World) (module : Value) :
  originalImport id parentUrl w = (Resolved module, w') ->
  (truthy (field module "__useDefault") = true ->
   outcome (SystemJS_import id parentUrl w) = Resolved (field module "default"))
  /\ (truthy (field module "__useDefault") = false ->
      outcome (SystemJS_import id parentUrl w) = Resolved module)
  /\ world (SystemJS_import id parentUrl w) = w'
  /\ events (SystemJS_import id parentUrl w) = [EvOriginalImport id parentUrl].
Proof.
  intros H. rewrite SystemJS_import_run, H. simpl.
  repeat split; intros ->; reflexivity.
Qed.

End Hooks.

(* ------------------------------------------------------------------ *)
(** ** importPluginModule *)

Section ImportPluginModule.
Context {World : Type} {L : Loader World}.

(** The registration step comes first; the rest of the call is the call of
    the same request without a version, from the environment reached. *)
Lemma importPluginModule_registration (request : PluginImportRequest.t) (w : World) :
  importPluginModule request w =
  mkRun (outcome (importPluginModule (withoutVersion request) (registered request w)))
        (world (importPluginModule (withoutVersion request) (registered request w)))
        (registrationEvents request
         ++ events (importPluginModule (withoutVersion request) (registered request w))).
Proof.
  destruct request as [path pluginId [v|] isAngular];
    unfold importPluginModule, registered, registrationEvents, registration, withoutVersion;
    cbn [PluginImportRequest.path PluginImportRequest.pluginId
         PluginImportRequest.version PluginImportRequest.isAngular truthyString].
  - destruct (v =? "") eqn:E; cbn [negb].
    + rewrite !bind_ret.
      match goal with |- ?r = _ => destruct r; reflexivity end.
    + rewrite bind_ret. unfold bind at 1. unfold call at 1. reflexivity.
  - rewrite !bind_ret.
    match goal with |- ?r = _ => destruct r; reflexivity end.
Qed.

Lemma load_builtIn_module (request : PluginImportRequest.t) (w : World) (module : Value) :
  builtInPlugins (PluginImportRequest.path request) = Some (BuiltInModule module) ->
  importPluginModule (withoutVersion request) w = mkRun (Resolved module) w [].
Proof.
  intros H. unfold importPluginModule, withoutVersion. simpl.
  rewrite bind_ret, H. reflexivity.
Qed.

Lemma load_builtIn_factory (request : PluginImportRequest.t) (w : World)
    (factory : Ext World Value) :
  builtInPlugins (PluginImportRequest.path request) = Some (BuiltInFactory factory) ->
  importPluginModule (withoutVersion request) w =
  mkRun (fst (factory w)) (snd (factory w))
        [EvBuiltInFactory (PluginImportRequest.path request)].
Proof.
  intros H. unfold importPluginModule, withoutVersion. simpl.
  rewrite bind_ret, H. unfold call. destruct (factory w). reflexivity.
Qed.

(** The dynamic path, by what the support check settles to. *)
Lemma load_dynamic (request : PluginImportRequest.t) (w : World) :
  builtInPlugins (PluginImportRequest.path request) = None ->
  importPluginModule (withoutVersion request) w =
  let path := PluginImportRequest.path request in
  let pluginId := PluginImportRequest.pluginId request in
  let isAngular := PluginImportRequest.isAngular request in
  let asked := [EvResolveModulePath path; EvIsFrontendSandboxSupported isAngular pluginId] in
  match isFrontendSandboxSupported isAngular pluginId w with
  | (Resolved true, w') =>
      mkRun (fst (importPluginModuleInSandbox pluginId w'))
            (snd (importPluginModuleInSandbox pluginId w'))
            (asked ++ [EvImportPluginModuleInSandbox pluginId])
  | (Resolved false, w') =>
      mkRun (outcome (SystemJS_import (resolveModulePath path) None w'))
            (world (SystemJS_import (resolveModulePath path) None w'))
            (asked ++ events (SystemJS_import (resolveModulePath path) None w'))
  | (Rejected e, w') => mkRun (Rejected e) w' asked
  | (Pending, w') => mkRun Pending w' asked
  end.
Proof.
  destruct request as [path pluginId version isAngular].
  unfold importPluginModule, withoutVersion.
  cbn [PluginImportRequest.path PluginImportRequest.pluginId
       PluginImportRequest.version PluginImportRequest.isAngular].
  intros H. rewrite bind_ret, H.
  unfold bind, callPure, call. cbn [outcome world events].
  destruct (isFrontendSandboxSupported isAngular pluginId w) as [[[|]|e|] w'];
    cbn [outcome world events]; try reflexivity.
  destruct (importPluginModuleInSandbox pluginId w'). reflexivity.
Qed.

Lemma loading_never_registers (request : PluginImportRequest.t) (w : World) :
  never isRegistration (events (importPluginModule (withoutVersion request) w)) = true.
Proof.
  destruct (builtInPlugins (PluginImportRequest.path request)) as [[module|factory]|] eqn:H.
  - rewrite (load_builtIn_module _ _ H). reflexivity.
  - rewrite (load_builtIn_factory _ _ H). reflexivity.
  - rewrite (load_dynamic _ _ H). cbv zeta.
    destruct (isFrontendSandboxSupported _ _ w) as [[[|]|e|] w']; simpl; try reflexivity.
    rewrite SystemJS_import_run. reflexivity.
Qed.

(** C4. For a path present in the built-in registry, [importPluginModule]
    gives the registered module, or what the registered async factory settles
    to, and calls neither the generic loader ([resolveModulePath], the import)
    nor the sandbox capability ([isFrontendSandboxSupported],
    [importPluginModuleInSandbox]): the only calls are the registration, if
    any, and the factory. *)
Theorem builtIn_bypasses_loader_and_sandbox (request : PluginImportRequest.t)
    (w : World) (builtIn : BuiltIn World) :
  builtInPlugins (PluginImportRequest.path request) = Some builtIn ->
  never isGenericLoader (events (importPluginModule request w)) = true
  /\ never isSandbox (events (importPluginModule request w)) = true
  /\ match builtIn with
     | BuiltInModule module =>
         outcome (importPluginModule request w) = Resolved module
         /\ events (importPluginModule request w) = registrationEvents request
     | BuiltInFactory factory =>
         outcome (importPluginModule request w) = fst (factory (registered request w))
         /\ events (importPluginModule request w) =
            registrationEvents request
            ++ [EvBuiltInFactory (PluginImportRequest.path request)]
     end.
Proof.
  intros H. rewrite importPluginModule_registration.
  assert (Hreg : forall p, (forall e, isRegistration e = true -> p e = false) ->
                           never p (registrationEvents request) = true).
  { intros p Hp. unfold registrationEvents.
    destruct (registration request) as [entry|]; [|reflexivity].
    simpl. rewrite (Hp (EvRegisterPluginInCache entry) eq_refl). reflexivity. }
  assert (Hg : never isGenericLoader (registrationEvents request) = true).
  { apply Hreg. intros [] He; try discriminate He; reflexivity. }
  assert (Hs : never isSandbox (registrationEvents request) = true).
  { apply Hreg. intros [] He; try discriminate He; reflexivity. }
  destruct builtIn as [module|factory].
  - rewrite (load_builtIn_module _ _ H). simpl. rewrite app_nil_r.
    repeat split; assumption.
  - rewrite (load_builtIn_factory _ _ H). simpl.
    rewrite !never_app, Hg, Hs. repeat split; reflexivity.
Qed.

(** C5, as the code has it. A request whose [version] is a non-empty string
    registers [{path, version, isAngular}] in the plugin cache as its first
    call: everything else the import does (module-path resolution, the support
    check, the import itself) comes after it, from the environment the
    registration produced, and registers nothing more. A request whose
    [version] is absent or the empty string registers nothing. *)
Theorem registration_precedes_loading (request : PluginImportRequest.t) (w : World) :
  (forall v, PluginImportRequest.version request = Some v -> v <> "" ->
     exists rest,
       events (importPluginModule request w) =
       EvRegisterPluginInCache
         (CacheablePlugin.mk (PluginImportRequest.path request) v
                             (PluginImportRequest.isAngular request)) :: rest
       /\ never isRegistration rest = true
       /\ rest = events (importPluginModule (withoutVersion request)
                   (registerPluginInCache
                      (CacheablePlugin.mk (PluginImportRequest.path request) v
                                          (PluginImportRequest.isAngular request)) w)))
  /\ (PluginImportRequest.version request = None \/
      PluginImportRequest.version request = Some "" ->
      never isRegistration (events (importPluginModule request w)) = true
      /\ events (importPluginModule request w) =
         events (importPluginModule (withoutVersion request) w)).
Proof.
  split.
  - intros v Hv Hne. rewrite importPluginModule_registration. simpl.
    unfold registrationEvents, registered, registration. rewrite Hv.
    destruct (v =? "") eqn:E; [apply String.eqb_eq in E; contradiction|].
    simpl. eexists. split; [reflexivity|]. split; [|reflexivity].
    apply loading_never_registers.
  - intros Hv. rewrite importPluginModule_registration. simpl.
    assert (Hnone : registration request = None).
    { unfold registration. destruct Hv as [-> | ->]; reflexivity. }
    unfold registrationEvents, registered. rewrite Hnone. simpl.
    split; [apply loading_never_registers|reflexivity].
Qed.

(** C8. On the dynamic path, when the sandbox-support check rejects, the
    import rejects with the same reason; neither the generic loader's import
    nor the sandboxed import is called. *)
Theorem sandbox_check_failure_propagates (request : PluginImportRequest.t)
    (w w' : World) (reason : Value) :
  builtInPlugins (PluginImportRequest.path request) = None ->
  isFrontendSandboxSupported (PluginImportRequest.isAngular request)
    (PluginImportRequest.pluginId request) (registered request w) = (Rejected reason, w') ->
  outcome (importPluginModule request w) = Rejected reason
  /\ never isOriginalImport (events (importPluginModule request w)) = true
  /\ never isSandboxImport (events (importPluginModule request w)) = true
  /\ events (importPluginModule request w) =
     registrationEvents request
     ++ [EvResolveModulePath (PluginImportRequest.path request);
         EvIsFrontendSandboxSupported (PluginImportRequest.isAngular request)
           (PluginImportRequest.pluginId request)].
Proof.
  intros H Hcheck. rewrite importPluginModule_registration, (load_dynamic _ _ H).
  cbv zeta. rewrite Hcheck. simpl. rewrite !never_app.
  unfold registrationEvents. destruct (registration request); repeat split; reflexivity.
Qed.

(** C9, as the code has it. On the dynamic path, for a request with
    [isAngular = true], [importPluginModule] hands the flag to the support
    check and follows its answer: when the check resolves to false the sandbox
    path is not taken and the import goes through the generic loader; when it
    resolves to true the sandboxed import is called and the generic loader's
    import is not. *)
Theorem angular_sandbox_follows_support_check (request : PluginImportRequest.t)
    (w w' : World) (supported : bool) :
  builtInPlugins (PluginImportRequest.path request) = None ->
  PluginImportRequest.isAngular request = Some true ->
  isFrontendSandboxSupported (Some true) (PluginImportRequest.pluginId request)
    (registered request w) = (Resolved supported, w') ->
  In (EvIsFrontendSandboxSupported (Some true) (PluginImportRequest.pluginId request))
     (events (importPluginModule request w))
  /\ (supported = false ->
     never isSandboxImport (events (importPluginModule request w)) = true
     /\ count isOriginalImport (events (importPluginModule request w)) = 1
     /\ In (EvOriginalImport (resolveModulePath (PluginImportRequest.path request)) None)
           (events (importPluginModule request w))
     /\ outcome (importPluginModule request w) =
        outcome (SystemJS_import (resolveModulePath (PluginImportRequest.path request))
                                 None w'))
  /\ (supported = true ->
      count isSandboxImport (events (importPluginModule request w)) = 1
      /\ never isOriginalImport (events (importPluginModule request w)) = true
      /\ outcome (importPluginModule request w) =
         fst (importPluginModuleInSandbox (PluginImportRequest.pluginId request) w')).
Proof.
  intros H Hang Hcheck.
  rewrite importPluginModule_registration, (load_dynamic _ _ H).
  cbv zeta. rewrite Hang, Hcheck.
  assert (Hr : forall p, p = isSandboxImport \/ p = isOriginalImport ->
                         never p (registrationEvents request) = true
                         /\ count p (registrationEvents request) = 0).
  { intros p Hp. unfold registrationEvents.
    destruct (registration request); destruct Hp as [-> | ->]; split; reflexivity. }
  destruct (Hr isSandboxImport (or_introl eq_refl)) as [Hs Hs'].
  destruct (Hr isOriginalImport (or_intror eq_refl)) as [Ho Ho'].
  split; [|split; intros ->; simpl].
  - destruct supported; cbn [events]; apply in_or_app; right; simpl; auto.
  - rewrite SystemJS_import_run. simpl.
    rewrite never_app, count_app, Hs, Ho'. repeat split; try reflexivity.
    apply in_or_app. right. simpl. auto.
  - rewrite never_app, count_app, Ho, Hs'. repeat split; reflexivity.
Qed.

End ImportPluginModule.

(* ------------------------------------------------------------------ *)
(** ** The typed importers *)

Section TypedImporters.
Context {World : Type} {L : Loader World}.

Lemma importPluginModule_calls_no_plugin_class (request : PluginImportRequest.t) (w : World) :
  never isPluginCall (events (importPluginModule request w)) = true.
Proof.
  rewrite importPluginModule_registration. cbn [events]. rewrite never_app.
  apply andb_true_iff. split.
  - unfold registrationEvents. destruct (registration request); reflexivity.
  - destruct (builtInPlugins (PluginImportRequest.path request)) as [[module|factory]|] eqn:H.
    + rewrite (load_builtIn_module _ _ H). reflexivity.
    + rewrite (load_builtIn_factory _ _ H). reflexivity.
    + rewrite (load_dynamic _ _ H). cbv zeta.
      destruct (isFrontendSandboxSupported _ _ _) as [[[|]|e|] w']; simpl; try reflexivity.
      rewrite SystemJS_import_run. reflexivity.
Qed.

Lemma never_weaken (p q : Event -> bool) (l : list Event) :
  (forall e, q e = true -> p e = true) -> never p l = true -> never q l = true.
Proof.
  intros Hpq. unfold never. induction l as [|e l IH]; simpl; [reflexivity|].
  intros H. apply andb_true_iff in H. destruct H as [He Hl].
  rewrite (IH Hl), andb_true_r.
  destruct (q e) eqn:E; [|reflexivity]. rewrite (Hpq e E) in He. exact He.
Qed.

(** The data-source importer, by the module the import resolved to. *)
Lemma importDataSourcePlugin_run (meta : PluginMeta.t) (w : World) (pluginExports : Value) :
  outcome (importPluginModule (requestOf meta) w) = Resolved pluginExports ->
  nullish pluginExports = false ->
  importDataSourcePlugin meta w =
  let r := importPluginModule (requestOf meta) w in
  let plugin := field pluginExports "plugin" in
  let Datasource := field pluginExports "Datasource" in
  if truthy plugin then
    mkRun (setProp plugin "meta" (metaValue meta)) (world r) (events r)
  else if truthy Datasource then
    mkRun (Resolved (VObject (assign "meta" (metaValue meta)
             (DataSourcePlugin_setComponentsFromLegacyExports
                (DataSourcePlugin_new Datasource) pluginExports))))
          (world r)
          (events r ++ [EvNewDataSourcePlugin Datasource;
                        EvSetComponentsFromLegacyExports
                          (VObject (DataSourcePlugin_new Datasource)) pluginExports])
  else mkRun (Rejected missingExport) (world r) (events r).
Proof.
  intros H Hn. unfold importDataSourcePlugin. rewrite (bind_resolved _ _ _ H).
  cbv zeta. rewrite !(not_nullish_getProp _ _ Hn), bind_settle_resolved.
  destruct (truthy (field pluginExports "plugin")).
  - unfold settle. cbn [outcome world events]. rewrite app_nil_r. reflexivity.
  - rewrite bind_settle_resolved.
    destruct (truthy (field pluginExports "Datasource")).
    + rewrite bind_callPure. unfold invoke. cbn [own].
      rewrite bind_callPure. reflexivity.
    + unfold throw, settle. cbn [outcome world events]. rewrite app_nil_r. reflexivity.
Qed.

(** C2. When the module has no [plugin] field and its [Datasource] field
    holds a constructor (any truthy value), [importDataSourcePlugin] resolves
    to a [DataSourcePlugin] object built from that constructor, on which
    [setComponentsFromLegacyExports] was called with the module's exports, and
    whose [meta] is the input metadata. *)
Theorem importDataSourcePlugin_wraps_Datasource (meta : PluginMeta.t) (w : World)
    (pluginExports : Value) :
  outcome (importPluginModule (requestOf meta) w) = Resolved pluginExports ->
  hasField pluginExports "plugin" = false ->
  truthy (field pluginExports "Datasource") = true ->
  exists dsPlugin,
    outcome (importDataSourcePlugin meta w) = Resolved dsPlugin
    /\ dsPlugin =
       VObject (assign "meta" (metaValue meta)
                  (DataSourcePlugin_setComponentsFromLegacyExports
                     (DataSourcePlugin_new (field pluginExports "Datasource"))
                     pluginExports))
    /\ field dsPlugin "meta" = metaValue meta
    /\ events (importDataSourcePlugin meta w) =
       events (importPluginModule (requestOf meta) w)
       ++ [EvNewDataSourcePlugin (field pluginExports "Datasource");
           EvSetComponentsFromLegacyExports
             (VObject (DataSourcePlugin_new (field pluginExports "Datasource")))
             pluginExports].
Proof.
  intros H Hp Hd.
  assert (Hn : nullish pluginExports = false).
  { apply (field_not_nullish pluginExports "Datasource"), truthy_field_is_present, Hd. }
  rewrite (importDataSourcePlugin_run _ _ H Hn). cbv zeta.
  rewrite (absent_field_is_undefined _ _ Hp), Hd. cbn [truthy outcome events].
  eexists. split; [reflexivity|]. split; [reflexivity|]. split; [|reflexivity].
  unfold field. cbn [own]. rewrite lookup_assign_same. reflexivity.
Qed.

(** C3. When the module has neither a [plugin] nor a [Datasource] field,
    [importDataSourcePlugin] rejects and resolves to no object: with the error
    that names the missing exports, or, when the import resolved to
    [undefined] or [null], with the [TypeError] of reading a property of
    it. No plugin class is called and nothing is called again: the calls are
    those of the one import. *)
Theorem importDataSourcePlugin_missing_exports (meta : PluginMeta.t) (w : World)
    (pluginExports : Value) :
  outcome (importPluginModule (requestOf meta) w) = Resolved pluginExports ->
  hasField pluginExports "plugin" = false ->
  hasField pluginExports "Datasource" = false ->
  outcome (importDataSourcePlugin meta w) =
    Rejected (if nullish pluginExports
              then TypeError "Cannot read properties of undefined or null"
              else missingExport)
  /\ events (importDataSourcePlugin meta w) = events (importPluginModule (requestOf meta) w)
  /\ world (importDataSourcePlugin meta w) = world (importPluginModule (requestOf meta) w)
  /\ never isPluginCall (events (importDataSourcePlugin meta w)) = true.
Proof.
  intros H Hp Hd.
  assert (Hev : events (importDataSourcePlugin meta w) =
                events (importPluginModule (requestOf meta) w)
                -> never isPluginCall (events (importDataSourcePlugin meta w)) = true).
  { intros ->. apply importPluginModule_calls_no_plugin_class. }
  destruct (nullish pluginExports) eqn:Hn.
  - assert (Hrun : importDataSourcePlugin meta w =
                   mkRun (Rejected (TypeError "Cannot read properties of undefined or null"))
                         (world (importPluginModule (requestOf meta) w))
                         (events (importPluginModule (requestOf meta) w))).
    { unfold importDataSourcePlugin. rewrite (bind_resolved _ _ _ H).
      destruct pluginExports; try discriminate Hn;
        unfold bind, settle; simpl; rewrite app_nil_r; reflexivity. }
    split; [rewrite Hrun; reflexivity|].
    split; [rewrite Hrun; reflexivity|].
    split; [rewrite Hrun; reflexivity|]. apply Hev. rewrite Hrun. reflexivity.
  - assert (Hrun := importDataSourcePlugin_run _ _ H Hn). cbv zeta in Hrun.
    rewrite (absent_field_is_undefined _ _ Hp), (absent_field_is_undefined _ _ Hd) in Hrun.
    cbn [truthy] in Hrun.
    split; [rewrite Hrun; reflexivity|].
    split; [rewrite Hrun; reflexivity|].
    split; [rewrite Hrun; reflexivity|]. apply Hev. rewrite Hrun. reflexivity.
Qed.

(** C10. When the [plugin] field of the module holds an object,
    [importDataSourcePlugin] resolves to that object with [meta] set to the
    input metadata, whatever else the module exports, a [Datasource] field
    included: no [DataSourcePlugin] is constructed and
    [setComponentsFromLegacyExports] is not called. *)
Theorem importDataSourcePlugin_prefers_plugin (meta : PluginMeta.t) (w : World)
    (pluginExports : Value) (props : Props) :
  outcome (importPluginModule (requestOf meta) w) = Resolved pluginExports ->
  own (field pluginExports "plugin") = Some props ->
  outcome (importDataSourcePlugin meta w) =
    Resolved (withProps (field pluginExports "plugin")
                        (assign "meta" (metaValue meta) props))
  /\ field (withProps (field pluginExports "plugin")
                      (assign "meta" (metaValue meta) props)) "meta" = metaValue meta
  /\ events (importDataSourcePlugin meta w) = events (importPluginModule (requestOf meta) w)
  /\ never isConstruction (events (importDataSourcePlugin meta w)) = true
  /\ never isSetComponents (events (importDataSourcePlugin meta w)) = true.
Proof.
  intros H Ho.
  assert (Hobj : isObject (field pluginExports "plugin") = true).
  { unfold isObject. rewrite Ho. reflexivity. }
  assert (Ht := object_is_truthy _ Hobj).
  assert (Hn : nullish pluginExports = false).
  { apply (field_not_nullish pluginExports "plugin"), truthy_field_is_present, Ht. }
  assert (Hrun := importDataSourcePlugin_run _ _ H Hn). cbv zeta in Hrun.
  rewrite Ht, (setProp_object _ _ _ Ho) in Hrun.
  assert (Hcalls := importPluginModule_calls_no_plugin_class (requestOf meta) w).
  rewrite Hrun. cbn [outcome events].
  split; [reflexivity|]. split; [apply (field_after_assignment _ _ _ Ho)|].
  split; [reflexivity|]. split.
  - apply (never_weaken isPluginCall); [|exact Hcalls].
    intros e He. unfold isPluginCall. rewrite He. reflexivity.
  - apply (never_weaken isPluginCall); [|exact Hcalls].
    intros e He. unfold isPluginCall. rewrite He. apply orb_true_r.
Qed.

(** C7. When the module has no [plugin] field, [importAppPlugin] resolves
    to a default-constructed [AppPlugin] on which [init] was called with the
    supplied metadata, once, then [meta] was set to that metadata, then
    [setComponentsFromLegacyExports] was called with the module's exports.
    The [meta] of the result is the supplied metadata, given that
    [setComponentsFromLegacyExports] of [AppPlugin], which runs after [meta]
    is set, leaves the [meta] property alone. *)
Theorem importAppPlugin_default_constructed (meta : PluginMeta.t) (w : World)
    (pluginExports : Value) :
  outcome (importPluginModule (requestOf meta) w) = Resolved pluginExports ->
  nullish pluginExports = false ->
  hasField pluginExports "plugin" = false ->
  exists plugin,
    outcome (importAppPlugin meta w) = Resolved plugin
    /\ plugin =
       VObject (AppPlugin_setComponentsFromLegacyExports
                  (assign "meta" (metaValue meta) (AppPlugin_init AppPlugin_new meta))
                  pluginExports)
    /\ ((forall this exports,
           lookup "meta" (AppPlugin_setComponentsFromLegacyExports this exports) =
           lookup "meta" this) ->
        field plugin "meta" = metaValue meta)
    /\ events (importAppPlugin meta w) =
       events (importPluginModule (requestOf meta) w)
       ++ [EvNewAppPlugin;
           EvInit (VObject AppPlugin_new) meta;
           EvSetComponentsFromLegacyExports
             (VObject (assign "meta" (metaValue meta) (AppPlugin_init AppPlugin_new meta)))
             pluginExports]
    /\ count isInit (events (importAppPlugin meta w)) = 1.
Proof.
  intros H Hn Hp.
  assert (Hrun : importAppPlugin meta w =
    mkRun (Resolved (VObject (AppPlugin_setComponentsFromLegacyExports
                      (assign "meta" (metaValue meta) (AppPlugin_init AppPlugin_new meta))
                      pluginExports)))
          (world (importPluginModule (requestOf meta) w))
          (events (importPluginModule (requestOf meta) w)
           ++ [EvNewAppPlugin;
               EvInit (VObject AppPlugin_new) meta;
               EvSetComponentsFromLegacyExports
                 (VObject (assign "meta" (metaValue meta)
                             (AppPlugin_init AppPlugin_new meta)))
                 pluginExports])).
  { unfold importAppPlugin. rewrite (bind_resolved _ _ _ H).
    rewrite (not_nullish_getProp _ _ Hn), bind_settle_resolved.
    rewrite (absent_field_is_undefined _ _ Hp). cbn [truthy].
    rewrite bind_callPure. unfold invoke at 1. cbn [own].
    rewrite bind_callPure. unfold setProp. cbn [own withProps].
    rewrite bind_settle_resolved. unfold invoke. cbn [own].
    rewrite bind_callPure. reflexivity. }
  rewrite Hrun. cbn [outcome events].
  eexists. split; [reflexivity|]. split; [reflexivity|]. split; [|split; [reflexivity|]].
  - intros Hclass. unfold field. cbn [own].
    rewrite Hclass, lookup_assign_same. reflexivity.
  - rewrite count_app, never_count; [reflexivity|].
    apply (never_weaken isPluginCall);
      [|apply importPluginModule_calls_no_plugin_class].
    intros e He. unfold isPluginCall. rewrite He. rewrite orb_true_r. reflexivity.
Qed.

End TypedImporters.

(* ------------------------------------------------------------------ *)
(** ** Runs on the sample environment *)

Lemma sample_setAppComponents_keeps_meta (this : Props) (exports : Value) :
  lookup "meta" (Demo.setAppComponents this exports) = lookup "meta" this.
Proof.
  unfold Demo.setAppComponents.
  destruct (truthy (field exports "ConfigCtrl")); [|reflexivity].
  apply lookup_assign_other. discriminate.
Qed.

(** A CDN-hosted URL is fetched whatever the cache holds; a plugin registered
    as Angular is fetched; any other URL is loaded by a script tag. *)
Lemma shouldFetch_on_samples :
  shouldFetch (L := Demo.loader) "https://plugins-cdn.example.net/clock/module.js" Demo.emptyCache = true
  /\ shouldFetch (L := Demo.loader) "plugins/old/module.js?_cache=7"
       [("plugins/old/module.js", CachedPlugin.mk "7" (Some true))] = true
  /\ shouldFetch (L := Demo.loader) "plugins/clock/module.js" Demo.emptyCache = false.
Proof.
  split; [|split].
  - apply (proj1 (proj2 (shouldFetch_cdn_or_angular (L := Demo.loader)
                           "https://plugins-cdn.example.net/clock/module.js" Demo.emptyCache))).
    reflexivity.
  - apply (proj1 (shouldFetch_cdn_or_angular (L := Demo.loader) _ _)).
    right. eexists. split; reflexivity.
  - apply (proj2 (proj2 (shouldFetch_cdn_or_angular (L := Demo.loader)
                           "plugins/clock/module.js" Demo.emptyCache))); reflexivity.
Defined.

Lemma import_substitutes_default_on_sample :
  outcome (SystemJS_import (L := Demo.loader) "/public/plugins/default-ds/module.js" None Demo.emptyCache)
  = Resolved Demo.legacyExports
  /\ outcome (SystemJS_import (L := Demo.loader) "/public/plugins/legacy-ds/module.js" None Demo.emptyCache)
     = Resolved Demo.legacyExports.
Proof.
  split.
  - exact (proj1 (import_substitutes_default (L := Demo.loader)
                    "/public/plugins/default-ds/module.js" None Demo.emptyCache eq_refl) eq_refl).
  - exact (proj1 (proj2 (import_substitutes_default (L := Demo.loader)
                    "/public/plugins/legacy-ds/module.js" None Demo.emptyCache eq_refl)) eq_refl).
Defined.

Lemma builtIn_factory_on_sample :
  never isGenericLoader
    (events (importPluginModule (Demo.request "core:plugin/loki" "loki" (Some "10.1.0") None) Demo.emptyCache))
  = true
  /\ never isSandbox
       (events (importPluginModule (Demo.request "core:plugin/loki" "loki" (Some "10.1.0") None) Demo.emptyCache))
     = true
  /\ outcome (importPluginModule (Demo.request "core:plugin/loki" "loki" (Some "10.1.0") None) Demo.emptyCache)
     = Resolved Demo.lokiModule
  /\ events (importPluginModule (Demo.request "core:plugin/loki" "loki" (Some "10.1.0") None) Demo.emptyCache)
     = [EvRegisterPluginInCache (CacheablePlugin.mk "core:plugin/loki" "10.1.0" None);
        EvBuiltInFactory "core:plugin/loki"].
Proof.
  exact (builtIn_bypasses_loader_and_sandbox (L := Demo.loader)
           (Demo.request "core:plugin/loki" "loki" (Some "10.1.0") None) Demo.emptyCache
           (builtIn := BuiltInFactory (fun w => (Resolved Demo.lokiModule, w))) eq_refl).
Defined.

Lemma registration_precedes_loading_on_sample :
  exists rest,
    events (importPluginModule
              (Demo.request "plugins/legacy-ds/module.js" "legacy-ds" (Some "1.2.3") None) Demo.emptyCache)
    = EvRegisterPluginInCache (CacheablePlugin.mk "plugins/legacy-ds/module.js" "1.2.3" None)
      :: rest
    /\ never isRegistration rest = true
    /\ rest = events (importPluginModule
                (withoutVersion
                   (Demo.request "plugins/legacy-ds/module.js" "legacy-ds" (Some "1.2.3") None))
                [("plugins/legacy-ds/module.js", CachedPlugin.mk "1.2.3" None)]).
Proof.
  apply (proj1 (registration_precedes_loading (L := Demo.loader)
                  (Demo.request "plugins/legacy-ds/module.js" "legacy-ds" (Some "1.2.3") None)
                  Demo.emptyCache) "1.2.3").
  - reflexivity.
  - discriminate.
Defined.

(** A request whose version is the empty string: the version is present, the
    module path is resolved and the module imported, and nothing was
    registered: the cache is as it was. *)
Lemma empty_version_is_not_registered :
  PluginImportRequest.version
    (Demo.request "plugins/legacy-ds/module.js" "legacy-ds" (Some "") None) = Some ""
  /\ events (importPluginModule
               (Demo.request "plugins/legacy-ds/module.js" "legacy-ds" (Some "") None) Demo.emptyCache)
     = [EvResolveModulePath "plugins/legacy-ds/module.js";
        EvIsFrontendSandboxSupported None "legacy-ds";
        EvOriginalImport "/public/plugins/legacy-ds/module.js" None]
  /\ never isRegistration
       (events (importPluginModule
                  (Demo.request "plugins/legacy-ds/module.js" "legacy-ds" (Some "") None) Demo.emptyCache))
     = true
  /\ world (importPluginModule
              (Demo.request "plugins/legacy-ds/module.js" "legacy-ds" (Some "") None) Demo.emptyCache)
     = Demo.emptyCache.
Proof. repeat split; reflexivity. Qed.

Lemma sandbox_check_failure_on_sample :
  outcome (importPluginModule
             (Demo.request "plugins/legacy-ds/module.js" "probe-fails" (Some "1.2.3") None) Demo.emptyCache)
  = Rejected Demo.probeError
  /\ never isOriginalImport
       (events (importPluginModule
          (Demo.request "plugins/legacy-ds/module.js" "probe-fails" (Some "1.2.3") None) Demo.emptyCache))
     = true
  /\ never isSandboxImport
       (events (importPluginModule
          (Demo.request "plugins/legacy-ds/module.js" "probe-fails" (Some "1.2.3") None) Demo.emptyCache))
     = true
  /\ events (importPluginModule
          (Demo.request "plugins/legacy-ds/module.js" "probe-fails" (Some "1.2.3") None) Demo.emptyCache)
     = [EvRegisterPluginInCache (CacheablePlugin.mk "plugins/legacy-ds/module.js" "1.2.3" None);
        EvResolveModulePath "plugins/legacy-ds/module.js";
        EvIsFrontendSandboxSupported None "probe-fails"].
Proof.
  exact (sandbox_check_failure_propagates (L := Demo.loader)
           (Demo.request "plugins/legacy-ds/module.js" "probe-fails" (Some "1.2.3") None)
           Demo.emptyCache eq_refl eq_refl).
Defined.

Lemma angular_not_sandboxed_on_sample :
  In (EvIsFrontendSandboxSupported (Some true) "sandbox-eligible")
     (events (importPluginModule
        (Demo.request "plugins/legacy-ds/module.js" "sandbox-eligible" None (Some true))
        Demo.emptyCache))
  /\ never isSandboxImport
    (events (importPluginModule
       (Demo.request "plugins/legacy-ds/module.js" "sandbox-eligible" None (Some true)) Demo.emptyCache))
  = true
  /\ count isOriginalImport
       (events (importPluginModule
          (Demo.request "plugins/legacy-ds/module.js" "sandbox-eligible" None (Some true)) Demo.emptyCache))
     = 1
  /\ In (EvOriginalImport "/public/plugins/legacy-ds/module.js" None)
        (events (importPluginModule
           (Demo.request "plugins/legacy-ds/module.js" "sandbox-eligible" None (Some true)) Demo.emptyCache))
  /\ outcome (importPluginModule
        (Demo.request "plugins/legacy-ds/module.js" "sandbox-eligible" None (Some true)) Demo.emptyCache)
     = Resolved Demo.legacyExports.
Proof.
  destruct (angular_sandbox_follows_support_check (L := Demo.loader)
              (Demo.request "plugins/legacy-ds/module.js" "sandbox-eligible" None (Some true))
              Demo.emptyCache eq_refl eq_refl eq_refl) as [Hasked [Hfalse _]].
  exact (conj Hasked (Hfalse eq_refl)).
Defined.

(** A request with [isAngular = true] for which the support check reports
    support: the sandboxed import is called, and the generic loader's import
    is not. *)
Lemma angular_sandboxed_when_check_allows :
  builtInPlugins (Loader := Demo.loader) "plugins/legacy-ds/module.js" = None
  /\ PluginImportRequest.isAngular
       (Demo.request "plugins/legacy-ds/module.js" "always-sandboxed" None (Some true))
     = Some true
  /\ events (importPluginModule
       (Demo.request "plugins/legacy-ds/module.js" "always-sandboxed" None (Some true)) Demo.emptyCache)
     = [EvResolveModulePath "plugins/legacy-ds/module.js";
        EvIsFrontendSandboxSupported (Some true) "always-sandboxed";
        EvImportPluginModuleInSandbox "always-sandboxed"]
  /\ count isSandboxImport
       (events (importPluginModule
          (Demo.request "plugins/legacy-ds/module.js" "always-sandboxed" None (Some true)) Demo.emptyCache))
     = 1
  /\ never isOriginalImport
       (events (importPluginModule
          (Demo.request "plugins/legacy-ds/module.js" "always-sandboxed" None (Some true)) Demo.emptyCache))
     = true
  /\ outcome (importPluginModule
        (Demo.request "plugins/legacy-ds/module.js" "always-sandboxed" None (Some true)) Demo.emptyCache)
     = Resolved (Demo.sandboxedModule "always-sandboxed").
Proof. repeat split; reflexivity. Qed.

Lemma importDataSourcePlugin_wraps_Datasource_on_sample :
  exists dsPlugin,
    outcome (importDataSourcePlugin Demo.legacyMeta Demo.emptyCache) = Resolved dsPlugin
    /\ dsPlugin =
       VObject (assign "meta" (metaValue Demo.legacyMeta)
                  (Demo.setDataSourceComponents
                     (Demo.newDataSourcePlugin Demo.LegacyDatasource) Demo.legacyExports))
    /\ field dsPlugin "meta" = metaValue Demo.legacyMeta
    /\ events (importDataSourcePlugin Demo.legacyMeta Demo.emptyCache) =
       events (importPluginModule (requestOf Demo.legacyMeta) Demo.emptyCache)
       ++ [EvNewDataSourcePlugin Demo.LegacyDatasource;
           EvSetComponentsFromLegacyExports
             (VObject (Demo.newDataSourcePlugin Demo.LegacyDatasource)) Demo.legacyExports].
Proof.
  exact (importDataSourcePlugin_wraps_Datasource (L := Demo.loader) Demo.legacyMeta Demo.emptyCache
           (pluginExports := Demo.legacyExports) eq_refl eq_refl eq_refl).
Defined.

Lemma importDataSourcePlugin_missing_exports_on_sample :
  outcome (importDataSourcePlugin Demo.emptyMeta Demo.emptyCache) = Rejected missingExport
  /\ events (importDataSourcePlugin Demo.emptyMeta Demo.emptyCache)
     = events (importPluginModule (requestOf Demo.emptyMeta) Demo.emptyCache)
  /\ world (importDataSourcePlugin Demo.emptyMeta Demo.emptyCache)
     = world (importPluginModule (requestOf Demo.emptyMeta) Demo.emptyCache)
  /\ never isPluginCall (events (importDataSourcePlugin Demo.emptyMeta Demo.emptyCache)) = true.
Proof.
  exact (importDataSourcePlugin_missing_exports (L := Demo.loader) Demo.emptyMeta Demo.emptyCache
           (pluginExports := Demo.emptyExports) eq_refl eq_refl eq_refl).
Defined.

Lemma importDataSourcePlugin_prefers_plugin_on_sample :
  hasField Demo.modernExports "Datasource" = true
  /\ outcome (importDataSourcePlugin Demo.modernMeta Demo.emptyCache)
     = Resolved (VObject [("kind", VString "prebuilt");
                          ("meta", metaValue Demo.modernMeta)])
  /\ events (importDataSourcePlugin Demo.modernMeta Demo.emptyCache)
     = events (importPluginModule (requestOf Demo.modernMeta) Demo.emptyCache)
  /\ never isConstruction (events (importDataSourcePlugin Demo.modernMeta Demo.emptyCache)) = true
  /\ never isSetComponents (events (importDataSourcePlugin Demo.modernMeta Demo.emptyCache)) = true.
Proof.
  split; [reflexivity|].
  destruct (importDataSourcePlugin_prefers_plugin (L := Demo.loader) Demo.modernMeta Demo.emptyCache
              (pluginExports := Demo.modernExports)
              (props := [("kind", VString "prebuilt")]) eq_refl eq_refl)
    as [Hout [_ [Hev [Hc Hs]]]].
  repeat split; assumption.
Defined.

Lemma importAppPlugin_default_constructed_on_sample :
  exists plugin,
    outcome (importAppPlugin Demo.appMeta Demo.emptyCache) = Resolved plugin
    /\ plugin = VObject [("meta", metaValue Demo.appMeta);
                         ("angularConfigCtrl", Demo.LegacyConfigCtrl)]
    /\ field plugin "meta" = metaValue Demo.appMeta
    /\ events (importAppPlugin Demo.appMeta Demo.emptyCache) =
       events (importPluginModule (requestOf Demo.appMeta) Demo.emptyCache)
       ++ [EvNewAppPlugin;
           EvInit (VObject []) Demo.appMeta;
           EvSetComponentsFromLegacyExports
             (VObject [("meta", metaValue Demo.appMeta)]) Demo.appExports]
    /\ count isInit (events (importAppPlugin Demo.appMeta Demo.emptyCache)) = 1.
Proof.
  destruct (importAppPlugin_default_constructed (L := Demo.loader) Demo.appMeta
              Demo.emptyCache (pluginExports := Demo.appExports) eq_refl eq_refl eq_refl)
    as [plugin [Hout [Hplugin [Hmeta [Hev Hinit]]]]].
  exists plugin. split; [exact Hout|]. split; [exact Hplugin|].
  split; [exact (Hmeta sample_setAppComponents_keeps_meta)|].
  split; [exact Hev|exact Hinit].
Defined.

(** The fetch policy reads what the import registered: once an Angular
    plugin was imported with a version, its module URL is fetched and
    evaluated, cache-busting suffix or not. *)
Example registered_angular_plugin_is_fetched :
  shouldFetch "plugins/legacy-ds/module.js?_cache=1.2.3" Demo.emptyCache = false
  /\ shouldFetch "plugins/legacy-ds/module.js?_cache=1.2.3"
       (world (importPluginModule
                 (Demo.request "plugins/legacy-ds/module.js" "legacy-ds" (Some "1.2.3")
                               (Some true))
                 Demo.emptyCache)) = true.
Proof. split; reflexivity. Qed.

(** What the truthiness tests of the data-source importer do with exports
    that are present but falsy, or that are not objects. *)
Example null_Datasource_is_a_missing_export :
  hasField Demo.nullDatasource "Datasource" = true
  /\ outcome (importDataSourcePlugin Demo.nullDatasourceMeta Demo.emptyCache)
     = Rejected missingExport.
Proof. split; reflexivity. Qed.

Example null_plugin_falls_back_to_Datasource :
  hasField Demo.nullPlugin "plugin" = true
  /\ count isConstruction
       (events (importDataSourcePlugin Demo.nullPluginMeta Demo.emptyCache)) = 1.
Proof. split; reflexivity. Qed.

Example primitive_plugin_cannot_take_meta :
  outcome (importDataSourcePlugin Demo.textPluginMeta Demo.emptyCache)
  = Rejected (TypeError "Cannot create property on a value that is not an object").
Proof. reflexivity. Qed.

(* ------------------------------------------------------------------ *)
(** ** Further properties of the import hook and of importPluginModule *)

Section MoreOnImportPluginModule.
Context {World : Type} {L : Loader World}.

(** X1. The import hook has no rejection handler: when the underlying import
    does not resolve (it rejects, or never settles), the decorated import
    settles the same way, with the same reason, and calls nothing else. *)
Theorem import_hook_passes_failure_through (id : string) (parentUrl : option string)
    (w : World) :
  (forall module, fst (originalImport id parentUrl w) <> Resolved module) ->
  outcome (SystemJS_import id parentUrl w) = fst (originalImport id parentUrl w)
  /\ world (SystemJS_import id parentUrl w) = snd (originalImport id parentUrl w)
  /\ events (SystemJS_import id parentUrl w) = [EvOriginalImport id parentUrl].
Proof.
  intros H. rewrite SystemJS_import_run. cbn [outcome world events].
  destruct (fst (originalImport id parentUrl w)) as [module|e|] eqn:E.
  - exfalso. exact (H module eq_refl).
  - repeat split; reflexivity.
  - repeat split; reflexivity.
Qed.

(** X2. Routing on the dynamic path, for any request. Once the support check
    resolves, the calls are: the registration if any, the path resolution,
    the check with the request's flag and id, and one import. When the check
    says true, that import is the sandboxed one and the import settles as it
    does, with no default substitution; when it says false, it is the generic
    loader's import of the resolved path, with no parent URL, and the import
    settles as the import hook does. *)
Theorem dynamic_import_routing (request : PluginImportRequest.t) (w w' : World)
    (supported : bool) :
  builtInPlugins (PluginImportRequest.path request) = None ->
  isFrontendSandboxSupported (PluginImportRequest.isAngular request)
    (PluginImportRequest.pluginId request) (registered request w) = (Resolved supported, w') ->
  events (importPluginModule request w) =
    registrationEvents request
    ++ [EvResolveModulePath (PluginImportRequest.path request);
        EvIsFrontendSandboxSupported (PluginImportRequest.isAngular request)
          (PluginImportRequest.pluginId request);
        if supported
        then EvImportPluginModuleInSandbox (PluginImportRequest.pluginId request)
        else EvOriginalImport (resolveModulePath (PluginImportRequest.path request)) None]
  /\ outcome (importPluginModule request w) =
     (if supported
      then fst (importPluginModuleInSandbox (PluginImportRequest.pluginId request) w')
      else outcome (SystemJS_import (resolveModulePath (PluginImportRequest.path request))
                                    None w'))
  /\ world (importPluginModule request w) =
     (if supported
      then snd (importPluginModuleInSandbox (PluginImportRequest.pluginId request) w')
      else snd (originalImport (resolveModulePath (PluginImportRequest.path request))
                               None w')).
Proof.
  intros H Hcheck. rewrite importPluginModule_registration, (load_dynamic _ _ H).
  cbv zeta. rewrite Hcheck. destruct supported; cbn [outcome world events].
  - repeat split; reflexivity.
  - rewrite SystemJS_import_run. cbn [outcome world events].
    repeat split; reflexivity.
Qed.

(** X3. There is no timeout around the support check: on the dynamic path,
    while the check does not settle the import does not settle either, and no
    module is loaded, by the sandbox or by the generic loader. *)
Theorem pending_support_check_blocks_the_import (request : PluginImportRequest.t)
    (w w' : World) :
  builtInPlugins (PluginImportRequest.path request) = None ->
  isFrontendSandboxSupported (PluginImportRequest.isAngular request)
    (PluginImportRequest.pluginId request) (registered request w) = (Pending, w') ->
  outcome (importPluginModule request w) = Pending
  /\ never isModuleLoad (events (importPluginModule request w)) = true
  /\ events (importPluginModule request w) =
     registrationEvents request
     ++ [EvResolveModulePath (PluginImportRequest.path request);
         EvIsFrontendSandboxSupported (PluginImportRequest.isAngular request)
           (PluginImportRequest.pluginId request)].
Proof.
  intros H Hcheck. rewrite importPluginModule_registration, (load_dynamic _ _ H).
  cbv zeta. rewrite Hcheck. cbn [outcome events]. rewrite never_app.
  unfold registrationEvents. destruct (registration request); repeat split; reflexivity.
Qed.

Lemma registration_at_most_once (request : PluginImportRequest.t) :
  count isRegistration (registrationEvents request) <= 1
  /\ count isModuleLoad (registrationEvents request) = 0
  /\ count isSupportCheck (registrationEvents request) = 0
  /\ count isResolution (registrationEvents request) = 0.
Proof.
  unfold registrationEvents. destruct (registration request); cbn; repeat split; lia.
Qed.

Lemma importPluginModule_calls_at_most_once_aux (request : PluginImportRequest.t)
    (w : World) :
  count isRegistration (events (importPluginModule request w)) <= 1
  /\ count isResolution (events (importPluginModule request w)) <= 1
  /\ count isSupportCheck (events (importPluginModule request w)) <= 1
  /\ count isModuleLoad (events (importPluginModule request w)) <= 1.
Proof.
  rewrite importPluginModule_registration. cbn [events]. rewrite !count_app.
  destruct (registration_at_most_once request) as [Hr [Hl [Hc Hp]]].
  rewrite Hl, Hc, Hp.
  destruct (builtInPlugins (PluginImportRequest.path request)) as [[module|factory]|] eqn:H.
  - rewrite (load_builtIn_module _ _ H). cbn. repeat split; lia.
  - rewrite (load_builtIn_factory _ _ H). cbn. repeat split; lia.
  - rewrite (load_dynamic _ _ H). cbv zeta.
    destruct (isFrontendSandboxSupported _ _ _) as [[[|]|e|] w1];
      cbn [events]; try rewrite SystemJS_import_run; cbn; repeat split; lia.
Qed.

(** X4. One call of [importPluginModule] registers at most once, resolves the
    module path at most once, asks the support check at most once and loads
    at most one module (by a built-in factory, the sandbox or the generic
    loader): nothing is retried. On the dynamic path the module path is
    resolved exactly once and the check is asked exactly once. *)
Theorem importPluginModule_calls_at_most_once (request : PluginImportRequest.t)
    (w : World) :
  count isRegistration (events (importPluginModule request w)) <= 1
  /\ count isResolution (events (importPluginModule request w)) <= 1
  /\ count isSupportCheck (events (importPluginModule request w)) <= 1
  /\ count isModuleLoad (events (importPluginModule request w)) <= 1
  /\ (builtInPlugins (PluginImportRequest.path request) = None ->
      count isResolution (events (importPluginModule request w)) = 1
      /\ count isSupportCheck (events (importPluginModule request w)) = 1).
Proof.
  destruct (importPluginModule_calls_at_most_once_aux request w) as [H1 [H2 [H3 H4]]].
  repeat split; try assumption.
  - rewrite importPluginModule_registration. cbn [events]. rewrite count_app.
    destruct (registration_at_most_once request) as [_ [_ [_ Hp]]]. rewrite Hp.
    rewrite (load_dynamic _ _ H). cbv zeta.
    destruct (isFrontendSandboxSupported _ _ _) as [[[|]|e|] w1];
      cbn [events]; try rewrite SystemJS_import_run; reflexivity.
  - rewrite importPluginModule_registration. cbn [events]. rewrite count_app.
    destruct (registration_at_most_once request) as [_ [_ [Hc _]]]. rewrite Hc.
    rewrite (load_dynamic _ _ H). cbv zeta.
    destruct (isFrontendSandboxSupported _ _ _) as [[[|]|e|] w1];
      cbn [events]; try rewrite SystemJS_import_run; reflexivity.
Qed.

End MoreOnImportPluginModule.

(* ------------------------------------------------------------------ *)
(** ** Further properties of the typed importers *)

Lemma own_withProps (v : Value) (o o' : Props) :
  own v = Some o -> own (withProps v o') = Some o'.
Proof. destruct v; simpl; intros H; try discriminate H; reflexivity. Qed.

Lemma withProps_withProps (v : Value) (o o' : Props) :
  withProps (withProps v o) o' = withProps v o'.
Proof. destruct v; reflexivity. Qed.

Lemma withProps_is_object (v : Value) (o o' : Props) :
  own v = Some o -> isObject (withProps v o') = true.
Proof. intros H. unfold isObject. rewrite (own_withProps _ o' H). reflexivity. Qed.

Lemma run_eta {World A} (r : Run World A) :
  mkRun (outcome r) (world r) (events r) = r.
Proof. destruct r. reflexivity. Qed.

Section MoreOnTypedImporters.
Context {World : Type} {L : Loader World}.

(** The app importer, by the module the import resolved to. *)
Lemma importAppPlugin_run (meta : PluginMeta.t) (w : World) (pluginExports : Value) :
  outcome (importPluginModule (requestOf meta) w) = Resolved pluginExports ->
  nullish pluginExports = false ->
  importAppPlugin meta w =
  let r := importPluginModule (requestOf meta) w in
  let exported := field pluginExports "plugin" in
  if truthy exported then
    match own exported with
    | Some props =>
        let stamped := assign "meta" (metaValue meta) (AppPlugin_init props meta) in
        mkRun (Resolved (withProps exported
                 (AppPlugin_setComponentsFromLegacyExports stamped pluginExports)))
              (world r)
              (events r ++ [EvInit exported meta;
                            EvSetComponentsFromLegacyExports
                              (withProps exported stamped) pluginExports])
    | None =>
        mkRun (Rejected (TypeError "The method is not a function")) (world r) (events r)
    end
  else
    let stamped := assign "meta" (metaValue meta) (AppPlugin_init AppPlugin_new meta) in
    mkRun (Resolved (VObject (AppPlugin_setComponentsFromLegacyExports stamped pluginExports)))
          (world r)
          (events r ++ [EvNewAppPlugin;
                        EvInit (VObject AppPlugin_new) meta;
                        EvSetComponentsFromLegacyExports (VObject stamped) pluginExports]).
Proof.
  intros H Hn. unfold importAppPlugin. rewrite (bind_resolved _ _ _ H).
  cbv zeta. rewrite (not_nullish_getProp _ _ Hn), bind_settle_resolved.
  destruct (truthy (field pluginExports "plugin")) eqn:Ht.
  - rewrite bind_ret. unfold invoke.
    destruct (own (field pluginExports "plugin")) as [props|] eqn:Ho.
    + rewrite bind_callPure.
      rewrite (setProp_object _ _ _ (own_withProps _ (AppPlugin_init props meta) Ho)).
      rewrite bind_settle_resolved, !withProps_withProps.
      rewrite (own_withProps _ _ Ho), bind_callPure, !withProps_withProps.
      reflexivity.
    + unfold throw. rewrite bind_settle_rejected. cbn [outcome world events].
      rewrite app_nil_r. reflexivity.
  - rewrite bind_callPure. unfold invoke. cbn [own].
    rewrite bind_callPure. unfold setProp. cbn [own withProps].
    rewrite bind_settle_resolved. cbn [own].
    rewrite bind_callPure. reflexivity.
Qed.

(** X5. When the import does not resolve (it rejects, or never settles),
    both typed importers settle exactly as the import did: same reason, same
    environment, same calls. No plugin class is touched. *)
Theorem typed_importers_pass_import_failure_through (meta : PluginMeta.t) (w : World) :
  (forall module, outcome (importPluginModule (requestOf meta) w) <> Resolved module) ->
  importDataSourcePlugin meta w = importPluginModule (requestOf meta) w
  /\ importAppPlugin meta w = importPluginModule (requestOf meta) w
  /\ never isPluginCall (events (importPluginModule (requestOf meta) w)) = true.
Proof.
  intros H.
  assert (Hsame : forall k : Value -> M World Value,
            bind (importPluginModule (requestOf meta)) k w
            = importPluginModule (requestOf meta) w).
  { intros k. unfold bind.
    destruct (outcome (importPluginModule (requestOf meta) w)) as [a|e|] eqn:E.
    - exfalso. exact (H a eq_refl).
    - rewrite <- E. apply run_eta.
    - rewrite <- E. apply run_eta. }
  split; [apply Hsame|]. split; [apply Hsame|].
  apply importPluginModule_calls_no_plugin_class.
Qed.

(** X6. Whatever the export shape, a data-source plugin that
    [importDataSourcePlugin] resolves to is an object whose [meta] is the
    input metadata. *)
Theorem importDataSourcePlugin_always_stamps_meta (meta : PluginMeta.t) (w : World)
    (plugin : Value) :
  outcome (importDataSourcePlugin meta w) = Resolved plugin ->
  isObject plugin = true /\ field plugin "meta" = metaValue meta.
Proof.
  intros Hres.
  destruct (outcome (importPluginModule (requestOf meta) w)) as [pluginExports|e|] eqn:H.
  - destruct (nullish pluginExports) eqn:Hn.
    + exfalso. unfold importDataSourcePlugin in Hres.
      rewrite (bind_resolved _ _ _ H) in Hres. cbn [outcome] in Hres.
      destruct pluginExports; try discriminate Hn; discriminate Hres.
    + rewrite (importDataSourcePlugin_run _ _ H Hn) in Hres. cbv zeta in Hres.
      destruct (truthy (field pluginExports "plugin")).
      * cbn [outcome] in Hres.
        destruct (own (field pluginExports "plugin")) as [props|] eqn:Ho.
        -- rewrite (setProp_object _ _ _ Ho) in Hres. injection Hres as <-.
           split; [exact (withProps_is_object _ _ Ho)|].
           exact (field_after_assignment _ _ _ Ho).
        -- unfold setProp in Hres. rewrite Ho in Hres. discriminate Hres.
      * destruct (truthy (field pluginExports "Datasource")); cbn [outcome] in Hres.
        -- injection Hres as <-. split; [reflexivity|].
           unfold field. cbn [own]. rewrite lookup_assign_same. reflexivity.
        -- discriminate Hres.
  - exfalso. unfold importDataSourcePlugin in Hres.
    rewrite (bind_rejected _ _ _ H) in Hres. discriminate Hres.
  - exfalso. unfold importDataSourcePlugin in Hres.
    rewrite (bind_pending _ _ _ H) in Hres. discriminate Hres.
Qed.

(** X7. A [plugin] export that is present but falsy ([null], [undefined],
    [false], [0], the empty string) counts as no [plugin] export: the
    [Datasource] export decides. A truthy [Datasource] is wrapped; a falsy
    one, present or not, is the missing-export error. *)
Theorem falsy_plugin_export_lets_Datasource_decide (meta : PluginMeta.t) (w : World)
    (pluginExports : Value) :
  outcome (importPluginModule (requestOf meta) w) = Resolved pluginExports ->
  nullish pluginExports = false ->
  truthy (field pluginExports "plugin") = false ->
  outcome (importDataSourcePlugin meta w) =
    (if truthy (field pluginExports "Datasource")
     then Resolved (VObject (assign "meta" (metaValue meta)
                      (DataSourcePlugin_setComponentsFromLegacyExports
                         (DataSourcePlugin_new (field pluginExports "Datasource"))
                         pluginExports)))
     else Rejected missingExport)
  /\ count isConstruction (events (importDataSourcePlugin meta w)) =
     (if truthy (field pluginExports "Datasource") then 1 else 0).
Proof.
  intros H Hn Hp. rewrite (importDataSourcePlugin_run _ _ H Hn). cbv zeta. rewrite Hp.
  assert (Hc : count isConstruction (events (importPluginModule (requestOf meta) w)) = 0).
  { apply never_count. apply (never_weaken isPluginCall);
      [|apply importPluginModule_calls_no_plugin_class].
    intros e He. unfold isPluginCall. rewrite He. reflexivity. }
  destruct (truthy (field pluginExports "Datasource")); cbn [outcome events].
  - rewrite count_app, Hc. split; reflexivity.
  - split; [reflexivity|exact Hc].
Qed.

(** X8. A [plugin] export that is truthy but not an object (a string, a
    number, [true]) makes [importDataSourcePlugin] reject with the
    [TypeError] of assigning [meta] to it. The importer does not fall back to
    the [Datasource] export, and calls no plugin class. *)
Theorem primitive_plugin_export_is_a_type_error (meta : PluginMeta.t) (w : World)
    (pluginExports : Value) :
  outcome (importPluginModule (requestOf meta) w) = Resolved pluginExports ->
  truthy (field pluginExports "plugin") = true ->
  isObject (field pluginExports "plugin") = false ->
  (exists message, outcome (importDataSourcePlugin meta w) = Rejected (TypeError message))
  /\ events (importDataSourcePlugin meta w) = events (importPluginModule (requestOf meta) w)
  /\ never isPluginCall (events (importDataSourcePlugin meta w)) = true.
Proof.
  intros H Ht Ho.
  assert (Hn : nullish pluginExports = false).
  { apply (field_not_nullish pluginExports "plugin"), truthy_field_is_present, Ht. }
  rewrite (importDataSourcePlugin_run _ _ H Hn). cbv zeta. rewrite Ht.
  cbn [outcome events]. unfold setProp. unfold isObject in Ho.
  destruct (own (field pluginExports "plugin")); [discriminate Ho|].
  split; [eexists; reflexivity|]. split; [reflexivity|].
  apply importPluginModule_calls_no_plugin_class.
Qed.


Lemma importDataSourcePlugin_nullish (meta : PluginMeta.t) (w : World)
    (pluginExports : Value) :
  outcome (importPluginModule (requestOf meta) w) = Resolved pluginExports ->
  nullish pluginExports = true ->
  importDataSourcePlugin meta w =
  mkRun (Rejected (TypeError "Cannot read properties of undefined or null"))
        (world (importPluginModule (requestOf meta) w))
        (events (importPluginModule (requestOf meta) w)).
Proof.
  intros H Hn. unfold importDataSourcePlugin. rewrite (bind_resolved _ _ _ H).
  destruct pluginExports; try discriminate Hn;
    unfold bind, settle; simpl; rewrite app_nil_r; reflexivity.
Qed.

Lemma importAppPlugin_nullish (meta : PluginMeta.t) (w : World) (pluginExports : Value) :
  outcome (importPluginModule (requestOf meta) w) = Resolved pluginExports ->
  nullish pluginExports = true ->
  importAppPlugin meta w =
  mkRun (Rejected (TypeError "Cannot read properties of undefined or null"))
        (world (importPluginModule (requestOf meta) w))
        (events (importPluginModule (requestOf meta) w)).
Proof.
  intros H Hn. unfold importAppPlugin. rewrite (bind_resolved _ _ _ H).
  destruct pluginExports; try discriminate Hn;
    unfold bind, settle; simpl; rewrite app_nil_r; reflexivity.
Qed.

(** X10. [importAppPlugin] tolerates a missing [plugin] export, not an
    unusable one. When the import resolved to [undefined] or [null], or the
    [plugin] export is truthy but not an object, it rejects with a
    [TypeError]; it does not fall back to a default [AppPlugin], and calls no
    plugin class. *)
Theorem importAppPlugin_rejects_unusable_module (meta : PluginMeta.t) (w : World)
    (pluginExports : Value) :
  outcome (importPluginModule (requestOf meta) w) = Resolved pluginExports ->
  nullish pluginExports = true
  \/ (truthy (field pluginExports "plugin") = true
      /\ isObject (field pluginExports "plugin") = false) ->
  (exists message, outcome (importAppPlugin meta w) = Rejected (TypeError message))
  /\ events (importAppPlugin meta w) = events (importPluginModule (requestOf meta) w)
  /\ never isPluginCall (events (importAppPlugin meta w)) = true.
Proof.
  intros H [Hn|[Ht Ho]].
  - rewrite (importAppPlugin_nullish _ _ H Hn). cbn [outcome events].
    split; [eexists; reflexivity|]. split; [reflexivity|].
    apply importPluginModule_calls_no_plugin_class.
  - assert (Hn : nullish pluginExports = false).
    { apply (field_not_nullish pluginExports "plugin"), truthy_field_is_present, Ht. }
    rewrite (importAppPlugin_run _ _ H Hn). cbv zeta. rewrite Ht.
    unfold isObject in Ho.
    destruct (own (field pluginExports "plugin")); [discriminate Ho|].
    cbn [outcome events].
    split; [eexists; reflexivity|]. split; [reflexivity|].
    apply importPluginModule_calls_no_plugin_class.
Qed.

Lemma plugin_calls_are_no_loader_calls (p : Event -> bool) (l : list Event) :
  (forall e, isPluginCall e = true -> p e = false) ->
  onlyPluginCalls l = true -> count p l = 0 /\ never p l = true.
Proof.
  intros Hp. unfold onlyPluginCalls, count, never.
  induction l as [|e l IH]; simpl; [split; reflexivity|].
  intros H. apply andb_true_iff in H. destruct H as [He Hl].
  rewrite (Hp e He). simpl. exact (IH Hl).
Qed.

(** What a typed importer calls after the import: plugin classes only. *)
Lemma importDataSourcePlugin_tail (meta : PluginMeta.t) (w : World) :
  exists tail,
    events (importDataSourcePlugin meta w) =
    events (importPluginModule (requestOf meta) w) ++ tail
    /\ onlyPluginCalls tail = true.
Proof.
  destruct (outcome (importPluginModule (requestOf meta) w)) as [pluginExports|e|] eqn:H.
  - destruct (nullish pluginExports) eqn:Hn.
    + exists []. rewrite (importDataSourcePlugin_nullish _ _ H Hn), app_nil_r.
      split; reflexivity.
    + rewrite (importDataSourcePlugin_run _ _ H Hn). cbv zeta.
      destruct (truthy (field pluginExports "plugin"));
        [|destruct (truthy (field pluginExports "Datasource"))]; cbn [events].
      * exists []. rewrite app_nil_r. split; reflexivity.
      * eexists. split; reflexivity.
      * exists []. rewrite app_nil_r. split; reflexivity.
  - exists []. unfold importDataSourcePlugin. rewrite (bind_rejected _ _ _ H), app_nil_r.
    split; reflexivity.
  - exists []. unfold importDataSourcePlugin. rewrite (bind_pending _ _ _ H), app_nil_r.
    split; reflexivity.
Qed.

Lemma importAppPlugin_tail (meta : PluginMeta.t) (w : World) :
  exists tail,
    events (importAppPlugin meta w) =
    events (importPluginModule (requestOf meta) w) ++ tail
    /\ onlyPluginCalls tail = true.
Proof.
  destruct (outcome (importPluginModule (requestOf meta) w)) as [pluginExports|e|] eqn:H.
  - destruct (nullish pluginExports) eqn:Hn.
    + exists []. rewrite (importAppPlugin_nullish _ _ H Hn), app_nil_r.
      split; reflexivity.
    + rewrite (importAppPlugin_run _ _ H Hn). cbv zeta.
      destruct (truthy (field pluginExports "plugin"));
        [destruct (own (field pluginExports "plugin"))|]; cbn [events].
      * eexists. split; reflexivity.
      * exists []. rewrite app_nil_r. split; reflexivity.
      * eexists. split; reflexivity.
  - exists []. unfold importAppPlugin. rewrite (bind_rejected _ _ _ H), app_nil_r.
    split; reflexivity.
  - exists []. unfold importAppPlugin. rewrite (bind_pending _ _ _ H), app_nil_r.
    split; reflexivity.
Qed.

(** X11. A typed importer imports once. Beyond the calls of its one
    [importPluginModule], it calls plugin classes only: so it loads at most
    one module, asks the support check at most once, and registers at most
    once. *)
Theorem typed_importers_import_once (meta : PluginMeta.t) (w : World) :
  (exists tail,
     events (importDataSourcePlugin meta w) =
     events (importPluginModule (requestOf meta) w) ++ tail
     /\ onlyPluginCalls tail = true)
  /\ (exists tail,
       events (importAppPlugin meta w) =
       events (importPluginModule (requestOf meta) w) ++ tail
       /\ onlyPluginCalls tail = true)
  /\ count isModuleLoad (events (importDataSourcePlugin meta w)) <= 1
  /\ count isModuleLoad (events (importAppPlugin meta w)) <= 1
  /\ count isSupportCheck (events (importDataSourcePlugin meta w)) <= 1
  /\ count isSupportCheck (events (importAppPlugin meta w)) <= 1
  /\ count isRegistration (events (importDataSourcePlugin meta w)) <= 1
  /\ count isRegistration (events (importAppPlugin meta w)) <= 1.
Proof.
  destruct (importDataSourcePlugin_tail meta w) as [td [Hd Hdp]].
  destruct (importAppPlugin_tail meta w) as [ta [Ha Hap]].
  destruct (importPluginModule_calls_at_most_once_aux (requestOf meta) w)
    as [Hr [_ [Hc Hl]]].
  assert (Hzero : forall tail, onlyPluginCalls tail = true ->
            count isModuleLoad tail = 0 /\ count isSupportCheck tail = 0
            /\ count isRegistration tail = 0).
  { intros tail Ht. repeat split;
      apply (plugin_calls_are_no_loader_calls _ tail); try exact Ht;
      intros [] He; try discriminate He; reflexivity. }
  destruct (Hzero td Hdp) as [Hd1 [Hd2 Hd3]].
  destruct (Hzero ta Hap) as [Ha1 [Ha2 Ha3]].
  split; [exists td; split; assumption|].
  split; [exists ta; split; assumption|].
  rewrite Hd, Ha, !count_app, Hd1, Hd2, Hd3, Ha1, Ha2, Ha3.
  repeat split; lia.
Qed.

(** X12. What the typed importers register is read off the metadata. With
    an [info.version] that is a non-empty string, the first call of either
    importer registers [{path: meta.module, version: meta.info.version,
    isAngular: meta.angular?.detected}], and nothing is registered after it.
    With no [info], or an empty version, neither importer registers. *)
Theorem typed_importers_register_from_metadata (meta : PluginMeta.t) (w : World) :
  (forall i, PluginMeta.info meta = Some i -> PluginMetaInfo.version i <> "" ->
     exists restDS restApp,
       events (importDataSourcePlugin meta w) =
       EvRegisterPluginInCache
         (CacheablePlugin.mk (PluginMeta.module meta) (PluginMetaInfo.version i)
            (option_map AngularMeta.detected (PluginMeta.angular meta))) :: restDS
       /\ never isRegistration restDS = true
       /\ events (importAppPlugin meta w) =
          EvRegisterPluginInCache
            (CacheablePlugin.mk (PluginMeta.module meta) (PluginMetaInfo.version i)
               (option_map AngularMeta.detected (PluginMeta.angular meta))) :: restApp
       /\ never isRegistration restApp = true)
  /\ (PluginMeta.info meta = None
      \/ (exists i, PluginMeta.info meta = Some i /\ PluginMetaInfo.version i = "") ->
      never isRegistration (events (importDataSourcePlugin meta w)) = true
      /\ never isRegistration (events (importAppPlugin meta w)) = true).
Proof.
  destruct (importDataSourcePlugin_tail meta w) as [td [Hd Hdp]].
  destruct (importAppPlugin_tail meta w) as [ta [Ha Hap]].
  assert (Hnr : forall tail, onlyPluginCalls tail = true -> never isRegistration tail = true).
  { intros tail Ht. apply (plugin_calls_are_no_loader_calls _ tail); [|exact Ht].
    intros [] He; try discriminate He; reflexivity. }
  rewrite Hd, Ha, importPluginModule_registration. cbn [events].
  assert (Hload := loading_never_registers (requestOf meta) (registered (requestOf meta) w)).
  split.
  - intros i Hi Hv.
    assert (Hreg : registrationEvents (requestOf meta) =
              [EvRegisterPluginInCache
                 (CacheablePlugin.mk (PluginMeta.module meta) (PluginMetaInfo.version i)
                    (option_map AngularMeta.detected (PluginMeta.angular meta)))]).
    { unfold registrationEvents, registration, requestOf.
      cbn [PluginImportRequest.version PluginImportRequest.path
           PluginImportRequest.isAngular].
      rewrite Hi. cbn [optChain].
      destruct (PluginMetaInfo.version i =? "") eqn:E;
        [apply String.eqb_eq in E; contradiction|].
      destruct (PluginMeta.angular meta); reflexivity. }
    rewrite Hreg. cbn [app]. do 2 eexists.
    split; [reflexivity|]. split; [rewrite never_app, Hload, (Hnr _ Hdp); reflexivity|].
    split; [reflexivity|]. rewrite never_app, Hload, (Hnr _ Hap). reflexivity.
  - intros Hv.
    assert (Hreg : registrationEvents (requestOf meta) = []).
    { unfold registrationEvents, registration, requestOf.
      cbn [PluginImportRequest.version].
      destruct Hv as [Hi | [i [Hi Hv]]]; rewrite Hi; cbn [optChain];
        [|rewrite Hv]; reflexivity. }
    rewrite Hreg. cbn [app]. rewrite !never_app, Hload, (Hnr _ Hdp), (Hnr _ Hap).
    split; reflexivity.
Qed.

(** X13. A data source that only has a default export. On the dynamic path
    with no sandbox, when the generic loader resolves to a module marked
    [__useDefault] whose [default] has no [plugin] and a truthy [Datasource],
    [importDataSourcePlugin] wraps [default.Datasource], and the legacy
    exports it reads are those of [default]. *)
Theorem default_only_datasource_is_wrapped (meta : PluginMeta.t) (w w1 w2 : World)
    (module : Value) :
  builtInPlugins (PluginMeta.module meta) = None ->
  isFrontendSandboxSupported (option_map AngularMeta.detected (PluginMeta.angular meta))
    (PluginMeta.id meta) (registered (requestOf meta) w) = (Resolved false, w1) ->
  originalImport (resolveModulePath (PluginMeta.module meta)) None w1
    = (Resolved module, w2) ->
  truthy (field module "__useDefault") = true ->
  hasField (field module "default") "plugin" = false ->
  truthy (field (field module "default") "Datasource") = true ->
  outcome (importDataSourcePlugin meta w) =
    Resolved (VObject (assign "meta" (metaValue meta)
                (DataSourcePlugin_setComponentsFromLegacyExports
                   (DataSourcePlugin_new (field (field module "default") "Datasource"))
                   (field module "default"))))
  /\ count isOriginalImport (events (importDataSourcePlugin meta w)) = 1
  /\ count isConstruction (events (importDataSourcePlugin meta w)) = 1.
Proof.
  intros Hb Hcheck Himport Hmark Hp Hd.
  assert (Hang : PluginImportRequest.isAngular (requestOf meta) =
                 option_map AngularMeta.detected (PluginMeta.angular meta)).
  { unfold requestOf. cbn [PluginImportRequest.isAngular].
    destruct (PluginMeta.angular meta); reflexivity. }
  assert (Hrun : importPluginModule (requestOf meta) w =
            mkRun (Resolved (field module "default")) w2
                  (registrationEvents (requestOf meta)
                   ++ [EvResolveModulePath (PluginMeta.module meta);
                       EvIsFrontendSandboxSupported
                         (option_map AngularMeta.detected (PluginMeta.angular meta))
                         (PluginMeta.id meta);
                       EvOriginalImport (resolveModulePath (PluginMeta.module meta)) None])).
  { rewrite importPluginModule_registration.
    rewrite (load_dynamic (requestOf meta) _ Hb). cbv zeta.
    rewrite Hang. cbn [requestOf PluginImportRequest.pluginId PluginImportRequest.path].
    rewrite Hcheck, SystemJS_import_run, Himport. cbn [fst snd outcome world events].
    rewrite Hmark. reflexivity. }
  assert (Hout : outcome (importPluginModule (requestOf meta) w)
                 = Resolved (field module "default")).
  { rewrite Hrun. reflexivity. }
  assert (Hn : nullish (field module "default") = false).
  { apply (field_not_nullish _ "Datasource"), truthy_field_is_present, Hd. }
  rewrite (importDataSourcePlugin_run _ _ Hout Hn). cbv zeta.
  rewrite (absent_field_is_undefined _ _ Hp), Hd. cbn [truthy outcome events].
  rewrite Hrun. cbn [events]. rewrite !count_app.
  assert (Hreg : count isOriginalImport (registrationEvents (requestOf meta)) = 0
                 /\ count isConstruction (registrationEvents (requestOf meta)) = 0).
  { unfold registrationEvents. destruct (registration (requestOf meta)); split; reflexivity. }
  destruct Hreg as [-> ->]. repeat split; reflexivity.
Qed.

End MoreOnTypedImporters.

(* ------------------------------------------------------------------ *)
(** ** Further runs on the sample environment *)

Lemma import_hook_failure_on_sample :
  outcome (SystemJS_import (L := Demo.loader) "/public/plugins/gone-ds/module.js" None
             Demo.emptyCache)
  = Rejected (JsError "Error" "Unable to resolve the module")
  /\ world (SystemJS_import (L := Demo.loader) "/public/plugins/gone-ds/module.js" None
              Demo.emptyCache) = Demo.emptyCache
  /\ events (SystemJS_import (L := Demo.loader) "/public/plugins/gone-ds/module.js" None
               Demo.emptyCache)
     = [EvOriginalImport "/public/plugins/gone-ds/module.js" None].
Proof.
  apply (import_hook_passes_failure_through (L := Demo.loader)
           "/public/plugins/gone-ds/module.js" None Demo.emptyCache).
  intros module Hm. cbv in Hm. discriminate Hm.
Defined.

Lemma dynamic_import_routing_on_sample :
  events (importPluginModule
            (Demo.request "plugins/legacy-ds/module.js" "legacy-ds" (Some "1.2.3") None)
            Demo.emptyCache)
  = [EvRegisterPluginInCache (CacheablePlugin.mk "plugins/legacy-ds/module.js" "1.2.3" None);
     EvResolveModulePath "plugins/legacy-ds/module.js";
     EvIsFrontendSandboxSupported None "legacy-ds";
     EvOriginalImport "/public/plugins/legacy-ds/module.js" None]
  /\ outcome (importPluginModule
                (Demo.request "plugins/legacy-ds/module.js" "legacy-ds" (Some "1.2.3") None)
                Demo.emptyCache)
     = Resolved Demo.legacyExports
  /\ world (importPluginModule
              (Demo.request "plugins/legacy-ds/module.js" "legacy-ds" (Some "1.2.3") None)
              Demo.emptyCache)
     = [("plugins/legacy-ds/module.js", CachedPlugin.mk "1.2.3" None)].
Proof.
  exact (dynamic_import_routing (L := Demo.loader)
           (Demo.request "plugins/legacy-ds/module.js" "legacy-ds" (Some "1.2.3") None)
           Demo.emptyCache (supported := false) eq_refl eq_refl).
Defined.

Lemma sandboxed_import_routing_on_sample :
  events (importPluginModule
            (Demo.request "plugins/legacy-ds/module.js" "always-sandboxed" None None)
            Demo.emptyCache)
  = [EvResolveModulePath "plugins/legacy-ds/module.js";
     EvIsFrontendSandboxSupported None "always-sandboxed";
     EvImportPluginModuleInSandbox "always-sandboxed"]
  /\ outcome (importPluginModule
                (Demo.request "plugins/legacy-ds/module.js" "always-sandboxed" None None)
                Demo.emptyCache)
     = Resolved (Demo.sandboxedModule "always-sandboxed").
Proof. split; reflexivity. Qed.

Lemma pending_support_check_on_sample :
  outcome (importPluginModule (L := Cases.stalled)
             (Demo.request "plugins/legacy-ds/module.js" "legacy-ds" (Some "1.2.3") None)
             Demo.emptyCache)
  = Pending
  /\ never isModuleLoad
       (events (importPluginModule (L := Cases.stalled)
          (Demo.request "plugins/legacy-ds/module.js" "legacy-ds" (Some "1.2.3") None)
          Demo.emptyCache))
     = true
  /\ events (importPluginModule (L := Cases.stalled)
          (Demo.request "plugins/legacy-ds/module.js" "legacy-ds" (Some "1.2.3") None)
          Demo.emptyCache)
     = [EvRegisterPluginInCache (CacheablePlugin.mk "plugins/legacy-ds/module.js" "1.2.3" None);
        EvResolveModulePath "plugins/legacy-ds/module.js";
        EvIsFrontendSandboxSupported None "legacy-ds"].
Proof.
  exact (pending_support_check_blocks_the_import (L := Cases.stalled)
           (Demo.request "plugins/legacy-ds/module.js" "legacy-ds" (Some "1.2.3") None)
           Demo.emptyCache eq_refl eq_refl).
Defined.

Lemma calls_at_most_once_on_sample :
  count isModuleLoad
    (events (importPluginModule
       (Demo.request "plugins/legacy-ds/module.js" "legacy-ds" (Some "1.2.3") None)
       Demo.emptyCache)) <= 1
  /\ count isResolution
       (events (importPluginModule
          (Demo.request "plugins/legacy-ds/module.js" "legacy-ds" (Some "1.2.3") None)
          Demo.emptyCache)) = 1
  /\ count isSupportCheck
       (events (importPluginModule
          (Demo.request "plugins/legacy-ds/module.js" "legacy-ds" (Some "1.2.3") None)
          Demo.emptyCache)) = 1.
Proof.
  destruct (importPluginModule_calls_at_most_once (L := Demo.loader)
              (Demo.request "plugins/legacy-ds/module.js" "legacy-ds" (Some "1.2.3") None)
              Demo.emptyCache) as [_ [_ [_ [Hload Hdyn]]]].
  exact (conj Hload (Hdyn eq_refl)).
Defined.

Lemma import_failure_reaches_the_caller_on_sample :
  outcome (importPluginModule (requestOf Cases.goneMeta) Demo.emptyCache)
  = Rejected (JsError "Error" "Unable to resolve the module")
  /\ importDataSourcePlugin Cases.goneMeta Demo.emptyCache
     = importPluginModule (requestOf Cases.goneMeta) Demo.emptyCache
  /\ importAppPlugin Cases.goneMeta Demo.emptyCache
     = importPluginModule (requestOf Cases.goneMeta) Demo.emptyCache
  /\ never isPluginCall (events (importPluginModule (requestOf Cases.goneMeta) Demo.emptyCache))
     = true.
Proof.
  split; [reflexivity|].
  apply (typed_importers_pass_import_failure_through (L := Demo.loader)
           Cases.goneMeta Demo.emptyCache).
  intros module Hm. cbv in Hm. discriminate Hm.
Defined.

Lemma stamped_meta_on_sample :
  isObject
    (VObject (assign "meta" (metaValue Demo.legacyMeta)
                (Demo.setDataSourceComponents
                   (Demo.newDataSourcePlugin Demo.LegacyDatasource) Demo.legacyExports)))
  = true
  /\ field
       (VObject (assign "meta" (metaValue Demo.legacyMeta)
                   (Demo.setDataSourceComponents
                      (Demo.newDataSourcePlugin Demo.LegacyDatasource) Demo.legacyExports)))
       "meta"
     = metaValue Demo.legacyMeta.
Proof.
  exact (importDataSourcePlugin_always_stamps_meta (L := Demo.loader) Demo.legacyMeta
           Demo.emptyCache eq_refl).
Defined.

Lemma null_plugin_export_on_sample :
  outcome (importDataSourcePlugin Demo.nullPluginMeta Demo.emptyCache)
  = Resolved (VObject (assign "meta" (metaValue Demo.nullPluginMeta)
                (Demo.setDataSourceComponents
                   (Demo.newDataSourcePlugin Demo.LegacyDatasource) Demo.nullPlugin)))
  /\ count isConstruction (events (importDataSourcePlugin Demo.nullPluginMeta Demo.emptyCache))
     = 1.
Proof.
  exact (falsy_plugin_export_lets_Datasource_decide (L := Demo.loader) Demo.nullPluginMeta
           Demo.emptyCache (pluginExports := Demo.nullPlugin) eq_refl eq_refl eq_refl).
Defined.

Lemma primitive_plugin_export_on_sample :
  (exists message,
     outcome (importDataSourcePlugin Demo.textPluginMeta Demo.emptyCache)
     = Rejected (TypeError message))
  /\ events (importDataSourcePlugin Demo.textPluginMeta Demo.emptyCache)
     = events (importPluginModule (requestOf Demo.textPluginMeta) Demo.emptyCache)
  /\ never isPluginCall (events (importDataSourcePlugin Demo.textPluginMeta Demo.emptyCache))
     = true.
Proof.
  exact (primitive_plugin_export_is_a_type_error (L := Demo.loader) Demo.textPluginMeta
           Demo.emptyCache (pluginExports := Demo.textPlugin) eq_refl eq_refl eq_refl).
Defined.


Lemma unusable_app_plugin_on_sample :
  (exists message,
     outcome (importAppPlugin Demo.textPluginMeta Demo.emptyCache)
     = Rejected (TypeError message))
  /\ events (importAppPlugin Demo.textPluginMeta Demo.emptyCache)
     = events (importPluginModule (requestOf Demo.textPluginMeta) Demo.emptyCache)
  /\ never isPluginCall (events (importAppPlugin Demo.textPluginMeta Demo.emptyCache)) = true.
Proof.
  exact (importAppPlugin_rejects_unusable_module (L := Demo.loader) Demo.textPluginMeta
           Demo.emptyCache (pluginExports := Demo.textPlugin) eq_refl
           (or_intror (conj eq_refl eq_refl))).
Defined.

Lemma typed_importers_import_once_on_sample :
  count isModuleLoad (events (importDataSourcePlugin Demo.legacyMeta Demo.emptyCache)) <= 1
  /\ count isModuleLoad (events (importAppPlugin Demo.appMeta Demo.emptyCache)) <= 1.
Proof.
  split.
  - exact (proj1 (proj2 (proj2 (typed_importers_import_once (L := Demo.loader)
                                  Demo.legacyMeta Demo.emptyCache)))).
  - exact (proj1 (proj2 (proj2 (proj2 (typed_importers_import_once (L := Demo.loader)
                                         Demo.appMeta Demo.emptyCache))))).
Defined.

Lemma registration_from_metadata_on_sample :
  (exists restDS restApp,
     events (importDataSourcePlugin Cases.angularMeta Demo.emptyCache) =
     EvRegisterPluginInCache
       (CacheablePlugin.mk "plugins/legacy-ds/module.js" "4.0.1" (Some true)) :: restDS
     /\ never isRegistration restDS = true
     /\ events (importAppPlugin Cases.angularMeta Demo.emptyCache) =
        EvRegisterPluginInCache
          (CacheablePlugin.mk "plugins/legacy-ds/module.js" "4.0.1" (Some true)) :: restApp
     /\ never isRegistration restApp = true)
  /\ never isRegistration (events (importDataSourcePlugin Cases.unversionedMeta Demo.emptyCache))
     = true
  /\ never isRegistration (events (importAppPlugin Cases.unversionedMeta Demo.emptyCache))
     = true.
Proof.
  split.
  - apply (proj1 (typed_importers_register_from_metadata (L := Demo.loader)
                    Cases.angularMeta Demo.emptyCache) (PluginMetaInfo.mk "4.0.1")).
    + reflexivity.
    + discriminate.
  - apply (proj2 (typed_importers_register_from_metadata (L := Demo.loader)
                    Cases.unversionedMeta Demo.emptyCache)).
    right. exists (PluginMetaInfo.mk ""). split; reflexivity.
Defined.

Lemma default_only_datasource_on_sample :
  outcome (importDataSourcePlugin Cases.defaultMeta Demo.emptyCache)
  = Resolved (VObject (assign "meta" (metaValue Cases.defaultMeta)
                (Demo.setDataSourceComponents
                   (Demo.newDataSourcePlugin Demo.LegacyDatasource) Demo.legacyExports)))
  /\ count isOriginalImport (events (importDataSourcePlugin Cases.defaultMeta Demo.emptyCache))
     = 1
  /\ count isConstruction (events (importDataSourcePlugin Cases.defaultMeta Demo.emptyCache))
     = 1.
Proof.
  exact (default_only_datasource_is_wrapped (L := Demo.loader) Cases.defaultMeta
           Demo.emptyCache (module := Demo.defaultOnly) eq_refl eq_refl eq_refl
           eq_refl eq_refl eq_refl).
Defined.
